(** * Prefix-grouped climate dataset merger ("CLimate Data Clean.py")

    A shallow embedding of the batch script that lists the directory
    "Base Climate Data", keeps the names ending in ".nc", groups them by
    the text before their first underscore, and, group after group, opens
    the files, concatenates them along "time", derives an output path,
    saves the result and prints a report.

    Python values are modelled as follows.
    - [str] is [string]; the only string operations of the script
      ([split] on a one-character separator, [endswith], [os.path.join],
      [os.path.basename], f-string interpolation of strings) act on
      single ASCII characters, so a string is read as its byte sequence.
    - [defaultdict(list)] is an association list in insertion order (the
      iteration order of a Python dict).
    - The xarray library is an interface ([Xarray]) whose operations may
      raise; an exception is the [Raised] outcome of the monad [Run].
    - The file system and the console are observed through the ordered
      log of the calls the script makes ([event]). *)

From Stdlib Require Import List String Ascii Bool Arith Lia Permutation.
From Stdlib Require Import ZArith ListSet DecimalString DecimalPos DecimalZ Sorted.
Import ListNotations.

Local Open Scope string_scope.
Local Open Scope list_scope.

Local Notation "a +++ b" := (String.append a b)
  (right associativity, at level 60).

(** ** Python string primitives used by the script *)

Module PyStr.

(** [s.split(c)] for a separator of one character: the pieces between the
    occurrences of [c], never an empty list. *)
Fixpoint split (c : ascii) (s : string) : list string :=
  match s with
  | EmptyString => [EmptyString]
  | String a s' =>
      if Ascii.eqb a c then EmptyString :: split c s'
      else match split c s' with
           | [] => [String a EmptyString]
           | p :: ps => String a p :: ps
           end
  end.

(** [s.startswith(p)] *)
Fixpoint startswith (s p : string) : bool :=
  match p, s with
  | EmptyString, _ => true
  | String _ _, EmptyString => false
  | String b p', String a s' => Ascii.eqb a b && startswith s' p'
  end.

(** [s.endswith(suf)]: some tail of [s] is [suf]. *)
Fixpoint endswith (s suf : string) : bool :=
  String.eqb s suf ||
  match s with
  | EmptyString => false
  | String _ s' => endswith s' suf
  end.

(** [c in s] for a character. *)
Fixpoint contains (c : ascii) (s : string) : bool :=
  match s with
  | EmptyString => false
  | String a s' => Ascii.eqb a c || contains c s'
  end.

End PyStr.

(** ** os.path on a POSIX host *)

Module OsPath.

Definition sep : ascii := "/"%char.

(** [os.path.join(a, b)]: an absolute [b] replaces [a]; otherwise the two
    are glued with one separator unless [a] is empty or already ends
    with it. *)
Definition join (a b : string) : string :=
  if PyStr.startswith b (String sep EmptyString) then b
  else if String.eqb a EmptyString || PyStr.endswith a (String sep EmptyString)
       then a +++ b
       else a +++ String sep b.

(** [os.path.basename(p)]: what follows the last separator. *)
Definition basename (p : string) : string :=
  last (PyStr.split sep p) EmptyString.

End OsPath.

(** ** Discovery and grouping (script lines 7-22) *)

Definition search_directory : string := "Base Climate Data".

(** [[f for f in os.listdir(search_directory) if f.endswith(".nc")]];
    the argument is what [os.listdir] returned. *)
Definition all_files (listing : list string) : list string :=
  filter (fun f => PyStr.endswith f ".nc") listing.

(** [f.split("_")[0]]; [split] never returns the empty list, so the
    index is always in range. *)
Definition prefix_of (f : string) : string :=
  hd EmptyString (PyStr.split "_"%char f).

(** A [defaultdict(list)] from prefixes to lists of paths, in insertion
    order. *)
Definition groups : Type := list (string * list string).

Fixpoint lookup (k : string) (d : groups) : option (list string) :=
  match d with
  | [] => None
  | (k', vs) :: d' => if String.eqb k' k then Some vs else lookup k d'
  end.

(** [d[k].append(v)]: an absent key is created with the empty list at the
    end of the dictionary, then [v] is appended to the list of [k]. *)
Fixpoint dict_append (k v : string) (d : groups) : groups :=
  match d with
  | [] => [(k, [v])]
  | (k', vs) :: d' =>
      if String.eqb k' k then (k', vs ++ [v]) :: d'
      else (k', vs) :: dict_append k v d'
  end.

(** The loop of lines 19-22. *)
Definition files_by_prefix (files : list string) : groups :=
  fold_left
    (fun d f => dict_append (prefix_of f) (OsPath.join search_directory f) d)
    files [].

(** [prefixes = set(f.split("_")[0] for f in all_files)] (line 16),
    as a membership test; the script never reads it again. *)
Definition prefixes (files : list string) (k : string) : bool :=
  existsb (fun f => String.eqb (prefix_of f) k) files.

(** The distinct elements of a list in order of first occurrence. *)
Fixpoint first_occurrences (l : list string) : list string :=
  match l with
  | [] => []
  | x :: r => x :: filter (fun y => negb (String.eqb y x)) (first_occurrences r)
  end.

(** The paths of the files of a listing whose prefix is [k], in listing
    order. *)
Definition files_with_prefix (k : string) (files : list string) : list string :=
  map (OsPath.join search_directory)
      (filter (fun f => String.eqb (prefix_of f) k) files).

(** The stem of a discovered name: the name without its final ".nc". *)
Definition stem (f : string) : string :=
  if PyStr.endswith f ".nc" then String.substring 0 (String.length f - 3) f else f.

(** ** The xarray interface and the effects of the script *)

(** Outcome of a Python call: a value, or an exception that nobody
    catches. *)
Inductive outcome (E A : Type) : Type :=
| Returned (a : A)
| Raised (e : E).
Arguments Returned {E A} a.
Arguments Raised {E A} e.

(** What the script uses of xarray. [data_vars d] lists the names in the
    iteration order of [d.data_vars]; [attrs d v] is [d[v].attrs];
    [concat ds] is [xr.concat(ds, dim="time")]; [to_netcdf d p] is
    [d.to_netcdf(p)]. *)
Class Xarray (Dataset Attrs Fault : Type) : Type := {
  data_vars : Dataset -> list string;
  attrs : Dataset -> string -> Attrs;
  open_dataset : string -> outcome Fault Dataset;
  concat : list Dataset -> outcome Fault Dataset;
  to_netcdf : Dataset -> string -> outcome Fault unit
}.

(** One element of [data_names]. *)
Record MetadataRecord (Attrs : Type) : Type := mkRecord {
  file_name : string;
  variable_name : string;
  attributes : Attrs
}.
Arguments mkRecord {Attrs} _ _ _.
Arguments file_name {Attrs} _.
Arguments variable_name {Attrs} _.
Arguments attributes {Attrs} _.

(** The observable calls, in the order the script makes them: an attempt
    to open a file, a completed write, a printed line, a printed
    metadata dictionary. *)
Inductive event (Dataset Attrs : Type) : Type :=
| Open (fp : string)
| Save (path : string) (d : Dataset)
| Print (line : string)
| PrintEntry (entry : MetadataRecord Attrs).
Arguments Open {Dataset Attrs} fp.
Arguments Save {Dataset Attrs} path d.
Arguments Print {Dataset Attrs} line.
Arguments PrintEntry {Dataset Attrs} entry.

Section Script.

Context {Dataset Attrs Fault : Type} {X : Xarray Dataset Attrs Fault}.

Definition log : Type := list (event Dataset Attrs).

(** A computation appends to the log and returns or raises; after a
    raise nothing more is run. *)
Definition Run (A : Type) : Type := (log * outcome Fault A)%type.

Definition ret {A} (a : A) : Run A := ([], Returned a).

Definition bind {A B} (m : Run A) (k : A -> Run B) : Run B :=
  match m with
  | (t, Raised e) => (t, Raised e)
  | (t, Returned a) => let (t', r) := k a in (t ++ t', r)
  end.

Definition emit (ev : event Dataset Attrs) : Run unit := ([ev], Returned tt).

Definition lift {A} (o : outcome Fault A) : Run A := ([], o).

Local Notation "x <- c ;; k" := (bind c (fun x => k))
  (at level 61, c at next level, right associativity).
Local Notation "c ;; k" := (bind c (fun _ => k))
  (at level 61, right associativity).

(** [for x in l: body(x)] *)
Fixpoint for_each {A} (body : A -> Run unit) (l : list A) : Run unit :=
  match l with
  | [] => ret tt
  | x :: r => body x ;; for_each body r
  end.

(** The inner loop of lines 34-40 on one opened dataset. *)
Definition record_vars (fp : string) (dataset : Dataset)
    (data_names : list (MetadataRecord Attrs)) : list (MetadataRecord Attrs) :=
  fold_left
    (fun acc var_name =>
       acc ++ [mkRecord (OsPath.basename fp) var_name (attrs dataset var_name)])
    (data_vars dataset) data_names.

(** The loop of lines 29-40, threading [datasets] and [data_names]. *)
Fixpoint open_files (file_paths : list string) (datasets : list Dataset)
    (data_names : list (MetadataRecord Attrs))
  : Run (list Dataset * list (MetadataRecord Attrs)) :=
  match file_paths with
  | [] => ret (datasets, data_names)
  | fp :: rest =>
      emit (Open fp) ;;
      dataset <- lift (open_dataset fp) ;;
      open_files rest (datasets ++ [dataset]) (record_vars fp dataset data_names)
  end.

(** Lines 46-50. *)
Definition output_path (prefix : string)
    (data_names : list (MetadataRecord Attrs)) : string :=
  match data_names with
  | entry :: _ =>
      "src/data/Processed Climate Data/combined_" +++ prefix +++ "_"
        +++ variable_name entry +++ "_data.nc"
  | [] =>
      "/src/data/Processed Climate Data/combined_" +++ prefix
        +++ "_climate_data.nc"
  end.

(** [print(a, b)] writes its arguments separated by one space. *)
Definition saved_line (prefix path : string) : string :=
  ("Combined dataset for prefix '" +++ prefix +++ "' saved to:") +++ " " +++ path.

(** The body of the loop of line 25. *)
Definition process_group (g : string * list string) : Run unit :=
  let (prefix, file_paths) := g in
  opened <- open_files file_paths [] [] ;;
  let (datasets, data_names) := opened in
  combined_data <- lift (concat datasets) ;;
  let path := output_path prefix data_names in
  lift (to_netcdf combined_data path) ;;
  emit (Save path combined_data) ;;
  emit (Print (saved_line prefix path)) ;;
  emit (Print "Extracted Metadata:") ;;
  for_each (fun entry => emit (PrintEntry entry)) data_names.

(** The whole script, from the result of [os.listdir]. *)
Definition run (listing : list string) : Run unit :=
  for_each process_group (files_by_prefix (all_files listing)).

(** *** Observations on a log *)

Definition opened_paths (t : log) : list string :=
  flat_map (fun ev => match ev with Open fp => [fp] | _ => [] end) t.

Definition saved_files (t : log) : list (string * Dataset) :=
  flat_map (fun ev => match ev with Save p d => [(p, d)] | _ => [] end) t.

Definition printed_entries (t : log) : list (MetadataRecord Attrs) :=
  flat_map (fun ev => match ev with PrintEntry r => [r] | _ => [] end) t.

Definition is_open (ev : event Dataset Attrs) : bool :=
  match ev with
  | Open _ => true
  | _ => false
  end.

(** The content of the file at [p] after the writes of the log: the last
    write wins. *)
Definition disk (t : log) (p : string) : option Dataset :=
  fold_left
    (fun cur ev =>
       match ev with
       | Save q d => if String.eqb q p then Some d else cur
       | _ => cur
       end)
    t None.

(** What a group logs when every call succeeds: the opens, the write,
    then the report. *)
Definition group_report (prefix : string) (file_paths : list string)
    (combined_data : Dataset) (data_names : list (MetadataRecord Attrs)) : log :=
  map Open file_paths
  ++ Save (output_path prefix data_names) combined_data
  :: Print (saved_line prefix (output_path prefix data_names))
  :: Print "Extracted Metadata:"
  :: map PrintEntry data_names.

(** *** The environment seen from a group

    [opens_to fps dss]: every file of [fps] opens, to the datasets [dss]. *)
Definition opens_to (file_paths : list string) (datasets : list Dataset) : Prop :=
  Forall2 (fun fp d => open_dataset fp = Returned d) file_paths datasets.

(** The records of lines 36-40 for files that opened to [datasets]:
    files in order, and for each file its variables in order. *)
Definition metadata_of (file_paths : list string) (datasets : list Dataset)
  : list (MetadataRecord Attrs) :=
  flat_map
    (fun fd =>
       map (fun v => mkRecord (OsPath.basename (fst fd)) v (attrs (snd fd) v))
           (data_vars (snd fd)))
    (combine file_paths datasets).

(** The three calls of a group that can raise. [raises_in prefix fps e
    tried]: processing the group meets the exception [e] after having
    tried to open the files [tried]. *)
Inductive raises_in (prefix : string) (file_paths : list string) (e : Fault)
  : list string -> Prop :=
| open_raises before fp after datasets :
    file_paths = before ++ fp :: after ->
    opens_to before datasets ->
    open_dataset fp = Raised e ->
    raises_in prefix file_paths e (before ++ [fp])
| concat_raises datasets :
    opens_to file_paths datasets ->
    concat datasets = Raised e ->
    raises_in prefix file_paths e file_paths
| to_netcdf_raises datasets combined_data :
    opens_to file_paths datasets ->
    concat datasets = Returned combined_data ->
    to_netcdf combined_data
      (output_path prefix (metadata_of file_paths datasets)) = Raised e ->
    raises_in prefix file_paths e file_paths.

(** [group_succeeds prefix fps datasets combined]: every call of the
    group returns. *)
Definition group_succeeds (prefix : string) (file_paths : list string)
    (datasets : list Dataset) (combined_data : Dataset) : Prop :=
  opens_to file_paths datasets /\
  concat datasets = Returned combined_data /\
  to_netcdf combined_data
    (output_path prefix (metadata_of file_paths datasets)) = Returned tt.

(** [artifact_of g a]: [a] is the path and the content that the group
    [g] saves when all its calls return. *)
Definition artifact_of (g : string * list string) (a : string * Dataset) : Prop :=
  exists dss,
    group_succeeds (fst g) (snd g) dss (snd a) /\
    fst a = output_path (fst g) (metadata_of (snd g) dss).

End Script.

(** ** A small world to run the script in

    A dataset is the list of its variable names; a file opens when the
    table below has it; concatenation raises on an empty list and on
    datasets that disagree, and otherwise keeps the first; one output
    path is write-protected. *)

Definition toy_table : list (string * list string) :=
  [("Base Climate Data/tempA_2020.nc", ["temp"]);
   ("Base Climate Data/tempA_2021.nc", ["temp"]);
   ("Base Climate Data/rainB_2020.nc", ["precip"]);
   ("Base Climate Data/void_2020.nc", []);
   ("Base Climate Data/mixed_1.nc", ["temp"]);
   ("Base Climate Data/mixed_2.nc", ["precip"]);
   ("Base Climate Data/locked_1.nc", ["temp"])].

Definition toy_concat (ds : list (list string)) : outcome string (list string) :=
  match ds with
  | [] => Raised "ValueError"
  | d :: rest =>
      if forallb (fun d' => if list_eq_dec string_dec d' d then true else false) rest
      then Returned d
      else Raised "ValueError"
  end.

#[local] Instance toy : Xarray (list string) string string := {
  data_vars := fun d => d;
  attrs := fun _ v => "units of " +++ v;
  open_dataset := fun fp =>
    match lookup fp toy_table with
    | Some d => Returned d
    | None => Raised "FileNotFoundError"
    end;
  concat := toy_concat;
  to_netcdf := fun _ p =>
    if String.eqb p "src/data/Processed Climate Data/combined_locked_temp_data.nc"
    then Raised "PermissionError"
    else Returned tt
}.

(** A second small world: a file with two variables, "precip" before
    "temp", and a file with "temp" alone; concatenation keeps the first
    dataset and every write succeeds. *)
Definition toy_wx_table : list (string * list string) :=
  [("Base Climate Data/wx_2020.nc", ["precip"; "temp"]);
   ("Base Climate Data/wx_2021.nc", ["temp"])].

#[local] Instance toy_wx : Xarray (list string) string string := {
  data_vars := fun d => d;
  attrs := fun _ v => "units of " +++ v;
  open_dataset := fun fp =>
    match lookup fp toy_wx_table with
    | Some d => Returned d
    | None => Raised "FileNotFoundError"
    end;
  concat := fun ds =>
    match ds with
    | [] => Raised "ValueError"
    | d :: _ => Returned d
    end;
  to_netcdf := fun _ _ => Returned tt
}.

(** ** The map page (pages/page1.py): loading and the callbacks

    A document is what [json.load] returns: None, a bool, an int, a
    float, a str, a list or a dict, with Python's behaviour on each
    (subscription, iteration, membership, equality, hashing, ordering),
    the exceptions included. Integers, booleans, strings and None are
    concrete; a float is a value of an abstract type with the operations
    of the [PyFloat] interface, and [sorted] on a list that holds a float
    is an operation of that interface. A dict is the list of its items,
    with pairwise distinct keys. What a callback prints is kept as a
    structured line. *)

Module Page1.

(** [s.replace(old, new)] for a non-empty [old]: the occurrences of
    [old] are replaced from left to right, without overlap. [skip]
    counts the characters of a replaced occurrence still to be passed. *)
Fixpoint replace_from (old new : string) (skip : nat) (s : string) : string :=
  match s with
  | EmptyString => EmptyString
  | String a s' =>
      match skip with
      | S n => replace_from old new n s'
      | O =>
          if PyStr.startswith s old
          then new +++ replace_from old new (String.length old - 1) s'
          else String a (replace_from old new 0 s')
      end
  end.

Definition replace (s old new : string) : string := replace_from old new 0 s.

(** A Python dict with string keys, in insertion order: [d[k] = v] and
    [d.get(k)]. *)
Fixpoint dict_set {V} (k : string) (v : V) (d : list (string * V))
  : list (string * V) :=
  match d with
  | [] => [(k, v)]
  | (k', v') :: d' =>
      if String.eqb k' k then (k', v) :: d' else (k', v') :: dict_set k v d'
  end.

Fixpoint dict_get {V} (k : string) (d : list (string * V)) : option V :=
  match d with
  | [] => None
  | (k', v') :: d' => if String.eqb k' k then Some v' else dict_get k d'
  end.

(** The files [load_geojson_data] looks for (lines 162-168). *)
Definition file_names : list string :=
  ["cote-divoire-cocoa-area-2021.geojson";
   "cote-divoire-cocoa-deforestation-15-years-total-2021.geojson";
   "cote-divoire-cocoa-tn-2021.geojson";
   "cote-divoire-cocoa-yield-2021.geojson";
   "cote-divoire-zdc-traded-cote-divoire-cocoa-perc-2021.geojson"].

(** What opening and parsing a file gives: the document, a
    [json.JSONDecodeError] with its message, or any other exception. *)
Inductive load_result (Data Fault : Type) : Type :=
| Loaded (d : Data)
| DecodeError (msg : string)
| OtherFault (e : Fault).
Arguments Loaded {Data Fault} d.
Arguments DecodeError {Data Fault} msg.
Arguments OtherFault {Data Fault} e.

(** [os.path.exists] and [json.load(open(path))]. *)
Class Files (Data Fault : Type) : Type := {
  path_exists : string -> bool;
  json_load : string -> load_result Data Fault
}.

(** The exceptions the callbacks can meet. *)
Inductive py_error : Type :=
| KeyError (key : string)
| TypeError
| AttributeError.

(** The hashable values of a document. *)
Inductive scalar (Float : Type) : Type :=
| SNull
| SBool (b : bool)
| SInt (z : Z)
| SFloat (f : Float)
| SStr (s : string).
Arguments SNull {Float}.
Arguments SBool {Float} b.
Arguments SInt {Float} z.
Arguments SFloat {Float} f.
Arguments SStr {Float} s.

(** A value returned by [json.load]. *)
#[warnings="-register-all"]
Inductive json (Float : Type) : Type :=
| JScalar (v : scalar Float)
| JArr (items : list (json Float))
| JObj (items : list (string * json Float)).
Arguments JScalar {Float} v.
Arguments JArr {Float} items.
Arguments JObj {Float} items.

(** Python floats: [f == n] for an integer [n], [f == g], the test of a
    set on two floats ([f is g or f == g]), [str(f)], and [sorted] on a
    list of hashable values that holds a float, which returns a
    rearrangement of the list when it returns. *)
Class PyFloat (Float : Type) : Type := {
  float_eq_int : Float -> Z -> bool;
  float_eq : Float -> Float -> bool;
  float_same : Float -> Float -> bool;
  float_str : Float -> string;
  sorted_with_floats :
    list (scalar Float) -> outcome py_error (list (scalar Float));
  sorted_with_floats_permutes :
    forall l r, sorted_with_floats l = Returned r -> Permutation l r
}.

(** [px.scatter_mapbox()] and [go.Figure()] without arguments. *)
Class Plotly (Figure PlotFault : Type) : Type := {
  scatter_mapbox : outcome PlotFault Figure;
  go_figure : outcome PlotFault Figure
}.

(** [o1] then [k], unless [o1] raised. *)
Definition and_then {E A B} (o : outcome E A) (k : A -> outcome E B)
  : outcome E B :=
  match o with
  | Returned a => k a
  | Raised e => Raised e
  end.

(** [str(y)] for an integer. *)
Definition str_int (y : Z) : string := NilZero.string_of_int (Z.to_int y).

(** [p in s] for two strings. *)
Fixpoint occurs (p s : string) : bool :=
  PyStr.startswith s p ||
  match s with
  | EmptyString => false
  | String _ s' => occurs p s'
  end.

(** The characters of a string, as strings. *)
Fixpoint chars (s : string) : list string :=
  match s with
  | EmptyString => []
  | String a s' => String a EmptyString :: chars s'
  end.

(** [sorted] by insertion, stable, for an order that compares every
    pair. *)
Fixpoint insert_by {A} (le : A -> A -> bool) (y : A) (l : list A) : list A :=
  match l with
  | [] => [y]
  | x :: r => if le y x then y :: l else x :: insert_by le y r
  end.

Definition sort_by {A} (le : A -> A -> bool) (l : list A) : list A :=
  fold_right (insert_by le) [] l.

Section Values.

Context {Float : Type} {PF : PyFloat Float}.

(** A bool or an int as the number it is ([True == 1]). *)
Definition as_number (v : scalar Float) : option Z :=
  match v with
  | SBool b => Some (if b then 1%Z else 0%Z)
  | SInt z => Some z
  | _ => None
  end.

Definition is_float (v : scalar Float) : bool :=
  match v with SFloat _ => true | _ => false end.

Definition is_number (v : scalar Float) : bool :=
  match v with SBool _ | SInt _ => true | _ => false end.

Definition is_str (v : scalar Float) : bool :=
  match v with SStr _ => true | _ => false end.

(** Equality of two hashable values, with [ff] deciding two floats. *)
Definition scalar_test (ff : Float -> Float -> bool) (a b : scalar Float) : bool :=
  match a, b with
  | SNull, SNull => true
  | SStr s, SStr t => String.eqb s t
  | SFloat f, SFloat g => ff f g
  | SFloat f, _ =>
      match as_number b with Some n => float_eq_int f n | None => false end
  | _, SFloat g =>
      match as_number a with Some n => float_eq_int g n | None => false end
  | _, _ =>
      match as_number a, as_number b with
      | Some m, Some n => Z.eqb m n
      | _, _ => false
      end
  end.

(** [a == b] *)
Definition scalar_eq : scalar Float -> scalar Float -> bool :=
  scalar_test float_eq.

(** Whether a set takes [a] and [b] for one element. *)
Definition set_same : scalar Float -> scalar Float -> bool :=
  scalar_test float_same.

(** [v == s] for any value against a hashable one: a list or a dict is
    equal to none. *)
Definition py_eq (v : json Float) (s : scalar Float) : bool :=
  match v with
  | JScalar a => scalar_eq a s
  | _ => false
  end.

(** [s.add(v)] on a set given by its elements in insertion order: an
    element already there stays. *)
Definition set_add_py (v : scalar Float) (s : list (scalar Float))
  : list (scalar Float) :=
  if existsb (fun x => set_same x v) s then s else s ++ [v].

(** [str(v)] *)
Definition py_str (v : scalar Float) : string :=
  match v with
  | SNull => "None"
  | SBool true => "True"
  | SBool false => "False"
  | SInt z => str_int z
  | SFloat f => float_str f
  | SStr s => s
  end.

Definition number_le (a b : scalar Float) : bool :=
  match as_number a, as_number b with
  | Some m, Some n => Z.leb m n
  | _, _ => true
  end.

Definition str_le (a b : scalar Float) : bool :=
  match a, b with
  | SStr s, SStr t => String.leb s t
  | _, _ => true
  end.

(** [sorted(l)] on hashable values. Fewer than two elements are never
    compared. Numbers are ordered by value and strings by their
    characters; two elements of different kinds, or None and anything,
    do not compare, and a sort that returns has compared every two
    neighbours of its result. *)
Definition py_sorted (l : list (scalar Float))
  : outcome py_error (list (scalar Float)) :=
  match l with
  | [] => Returned []
  | [v] => Returned [v]
  | _ :: _ :: _ =>
      if existsb is_float l then sorted_with_floats l
      else if forallb is_number l then Returned (sort_by number_le l)
      else if forallb is_str l then Returned (sort_by str_le l)
      else Raised TypeError
  end.

(** [v[key]] for a string key. *)
Definition subscript (v : json Float) (key : string)
  : outcome py_error (json Float) :=
  match v with
  | JObj items =>
      match dict_get key items with
      | Some x => Returned x
      | None => Raised (KeyError key)
      end
  | _ => Raised TypeError
  end.

(** [v.get(key, default)] *)
Definition get_default (v : json Float) (key : string) (default : json Float)
  : outcome py_error (json Float) :=
  match v with
  | JObj items =>
      match dict_get key items with
      | Some x => Returned x
      | None => Returned default
      end
  | _ => Raised AttributeError
  end.

(** What [for x in v] goes through: the elements of a list, the keys of
    a dict, the characters of a string; nothing else is iterable. A
    character is taken byte by byte, which no step of the callbacks can
    tell from the character. *)
Definition iterate (v : json Float) : outcome py_error (list (json Float)) :=
  match v with
  | JArr items => Returned items
  | JObj items => Returned (map (fun kv => JScalar (SStr (fst kv))) items)
  | JScalar (SStr s) => Returned (map (fun c => JScalar (SStr c)) (chars s))
  | JScalar _ => Raised TypeError
  end.

(** [key in v] for a string key: a key of a dict, an element of a list,
    a part of a string. *)
Definition contains_key (v : json Float) (key : string) : outcome py_error bool :=
  match v with
  | JObj items =>
      Returned (match dict_get key items with Some _ => true | None => false end)
  | JArr items =>
      Returned (existsb
                  (fun x => match x with
                            | JScalar (SStr s) => String.eqb s key
                            | _ => false
                            end)
                  items)
  | JScalar (SStr s) => Returned (occurs key s)
  | JScalar _ => Raised TypeError
  end.

End Values.

(** An element of the options of the year dropdown. *)
Record DropdownOption (Float : Type) : Type := mkOption {
  label : string;
  value : scalar Float
}.
Arguments mkOption {Float} label value.
Arguments label {Float} d.
Arguments value {Float} d.

(** The line of [print(f"Available years for {selected_dataset}:
    {available_years}")], by its two parts. *)
Inductive printed (Float : Type) : Type :=
| AvailableYears (selected_dataset : string) (available_years : list (scalar Float)).
Arguments AvailableYears {Float} selected_dataset available_years.

(** What [update_map] does first: it evaluates the tuple of its return
    for a dataset that is not loaded (line 231), or it goes on with the
    features it has filtered, unless the filter raised. *)
Inductive map_start (Float Figure PlotFault : Type) : Type :=
| NoData (r : outcome PlotFault (Figure * string * string * Figure * Figure * string))
| GoesOn (r : outcome py_error (list (json Float))).
Arguments NoData {Float Figure PlotFault} r.
Arguments GoesOn {Float Figure PlotFault} r.

Section Loading.

Context {Data Fault : Type} {F : Files Data Fault}.

(** The loop of lines 171-181 over the remaining names, with the
    dictionary built so far; the result is the printed lines and the
    dictionary, or the exception that escaped. *)
Fixpoint load_files (data_dir : string) (names : list string)
    (datasets : list (string * Data))
  : list string * outcome Fault (list (string * Data)) :=
  match names with
  | [] => ([], Returned datasets)
  | file_name :: rest =>
      let file_path := OsPath.join data_dir file_name in
      if path_exists file_path then
        match json_load file_path with
        | Loaded d =>
            let dataset_name := replace file_name ".geojson" "" in
            load_files data_dir rest (dict_set dataset_name d datasets)
        | DecodeError msg =>
            let (out, r) := load_files data_dir rest datasets in
            (("Error loading " +++ file_name +++ ": " +++ msg) :: out, r)
        | OtherFault e => ([], Raised e)
        end
      else
        let (out, r) := load_files data_dir rest datasets in
        (("File not found: " +++ file_name) :: out, r)
  end.

(** [load_geojson_data()]; [data_dir] is the absolute path of the
    directory "data/cote-divoire" beside the pages. *)
Definition load_geojson_data (data_dir : string)
  : list string * outcome Fault (list (string * Data)) :=
  load_files data_dir file_names [].

(** What the loop does with one name when nothing else than a decode
    error is raised: the document it loads, if any. *)
Definition loaded (data_dir file_name : string) : option Data :=
  if path_exists (OsPath.join data_dir file_name) then
    match json_load (OsPath.join data_dir file_name) with
    | Loaded d => Some d
    | _ => None
    end
  else None.

(** The line the loop prints for one name, if any. *)
Definition message (data_dir file_name : string) : list string :=
  if path_exists (OsPath.join data_dir file_name) then
    match json_load (OsPath.join data_dir file_name) with
    | DecodeError msg => ["Error loading " +++ file_name +++ ": " +++ msg]
    | _ => []
    end
  else ["File not found: " +++ file_name].

(** The names whose file exists and raises something else than a decode
    error. *)
Definition faults (data_dir file_name : string) (e : Fault) : Prop :=
  path_exists (OsPath.join data_dir file_name) = true /\
  json_load (OsPath.join data_dir file_name) = OtherFault e.

End Loading.

Section Callbacks.

Context {Float Figure PlotFault : Type}
        {PF : PyFloat Float} {PL : Plotly Figure PlotFault}.

Local Notation "x <- o ;; k" := (and_then o (fun x => k))
  (at level 61, o at next level, right associativity).

(** What [for feature in geojson_data['features']] goes through. *)
Definition features_of (geojson_data : json Float)
  : outcome py_error (list (json Float)) :=
  fs <- subscript geojson_data "features" ;;
  iterate fs.

(** What [for entry in feature['properties'].get('timeseries', [])]
    goes through. *)
Definition entries_of (feature : json Float)
  : outcome py_error (list (json Float)) :=
  properties <- subscript feature "properties" ;;
  timeseries <- get_default properties "timeseries" (JArr []) ;;
  iterate timeseries.

(** The loop of lines 202-204 over the remaining entries; a year that
    is a list or a dict cannot be added to a set. *)
Fixpoint add_years (entries : list (json Float)) (years_set : list (scalar Float))
  : outcome py_error (list (scalar Float)) :=
  match entries with
  | [] => Returned years_set
  | entry :: rest =>
      has <- contains_key entry "year" ;;
      if has then
        year <- subscript entry "year" ;;
        match year with
        | JScalar v => add_years rest (set_add_py v years_set)
        | _ => Raised TypeError
        end
      else add_years rest years_set
  end.

(** The loop of lines 200-204 over the remaining features. *)
Fixpoint collect_years (features : list (json Float))
    (years_set : list (scalar Float))
  : outcome py_error (list (scalar Float)) :=
  match features with
  | [] => Returned years_set
  | feature :: rest =>
      entries <- entries_of feature ;;
      years_set' <- add_years entries years_set ;;
      collect_years rest years_set'
  end.

(** [update_year_selector(selected_dataset)] on the loaded datasets: the
    lines printed, the options and the default year, or the exception.
    The selected dataset is one of the names of the dropdown or None,
    which is no key. *)
Definition update_year_selector (geojson_datasets : list (string * json Float))
    (selected_dataset : option string)
  : outcome py_error
      (list (printed Float) * (list (DropdownOption Float) * option (scalar Float))) :=
  match selected_dataset with
  | None => Returned ([], ([], None))
  | Some name =>
      match dict_get name geojson_datasets with
      | None => Returned ([], ([], None))
      | Some geojson_data =>
          features <- features_of geojson_data ;;
          years_set <- collect_years features [] ;;
          available_years <- py_sorted years_set ;;
          let default_year :=
            match available_years with
            | [] => None
            | _ :: _ => Some (last available_years SNull)
            end in
          Returned
            ([AvailableYears name available_years],
             (map (fun y => mkOption (py_str y) y) available_years, default_year))
      end
  end.

(** [any(entry['year'] == selected_year for entry in entries)]: the
    entries are read in order up to the first match. *)
Fixpoint any_year_is (selected_year : scalar Float) (entries : list (json Float))
  : outcome py_error bool :=
  match entries with
  | [] => Returned false
  | entry :: rest =>
      year <- subscript entry "year" ;;
      if py_eq year selected_year then Returned true
      else any_year_is selected_year rest
  end.

(** The list comprehension of lines 237-240 of [update_map]. *)
Fixpoint selected_features (selected_year : scalar Float)
    (features : list (json Float))
  : outcome py_error (list (json Float)) :=
  match features with
  | [] => Returned []
  | feature :: rest =>
      entries <- entries_of feature ;;
      keep <- any_year_is selected_year entries ;;
      kept <- selected_features selected_year rest ;;
      Returned (if keep then feature :: kept else kept)
  end.

(** The tuple of line 231, evaluated from left to right. *)
Definition no_data_return
  : outcome PlotFault (Figure * string * string * Figure * Figure * string) :=
  fig <- scatter_mapbox ;;
  timeseries_fig <- go_figure ;;
  distribution_fig <- go_figure ;;
  Returned (fig, "No data available", "No data available",
            timeseries_fig, distribution_fig, "No data available").

(** [update_map] up to line 240. The selected year is a value of the
    year dropdown, one of the hashable values offered or None. *)
Definition update_map_start (geojson_datasets : list (string * json Float))
    (selected_dataset : option string) (selected_year : scalar Float)
  : map_start Float Figure PlotFault :=
  match selected_dataset with
  | None => NoData no_data_return
  | Some name =>
      match dict_get name geojson_datasets with
      | None => NoData no_data_return
      | Some geojson_data =>
          GoesOn (features <- features_of geojson_data ;;
                  selected_features selected_year features)
      end
  end.

(** *** Shapes of documents, for the statements

    An entry is a dict whose year, if any, is an integer. *)
Definition int_entry (entry : json Float) : Prop :=
  exists items,
    entry = JObj items /\
    (dict_get "year" items = None \/
     exists y, dict_get "year" items = Some (JScalar (SInt y))).

(** Every feature has its entries, and they are such entries. *)
Definition int_years (features : list (json Float)) : Prop :=
  forall feature,
    In feature features ->
    exists entries,
      entries_of feature = Returned entries /\ Forall int_entry entries.

(** A feature has an entry of the integer year [y]. *)
Definition has_year (y : Z) (feature : json Float) : Prop :=
  exists entries entry,
    entries_of feature = Returned entries /\ In entry entries /\
    subscript entry "year" = Returned (JScalar (SInt y)).

(** Every feature has its entries, and every entry has a year, of
    whatever kind. *)
Definition years_complete (features : list (json Float)) : Prop :=
  forall feature,
    In feature features ->
    exists entries,
      entries_of feature = Returned entries /\
      forall entry, In entry entries -> exists v, subscript entry "year" = Returned v.

(** A feature has an entry whose year is equal ([==]) to [selected_year]. *)
Definition has_year_eq (selected_year : scalar Float) (feature : json Float) : bool :=
  match entries_of feature with
  | Returned entries =>
      existsb
        (fun entry =>
           match subscript entry "year" with
           | Returned v => py_eq v selected_year
           | Raised _ => false
           end)
        entries
  | Raised _ => false
  end.

End Callbacks.

(** A small world for the page. Its floats are one value that is equal
    to nothing; [px.scatter_mapbox()] raises; two of the five files are
    there and parse, a third one does not parse. *)
#[local] Instance toy_float : PyFloat unit := {
  float_eq_int := fun _ _ => false;
  float_eq := fun _ _ => false;
  float_same := fun _ _ => true;
  float_str := fun _ => "nan";
  sorted_with_floats := fun l => Returned l;
  sorted_with_floats_permutes := fun l r H =>
    match H in (_ = o)
          return (match o with
                  | Returned r' => Permutation l r'
                  | Raised _ => True
                  end) with
    | eq_refl => Permutation_refl l
    end
}.

#[local] Instance toy_plotly : Plotly string string := {
  scatter_mapbox := Raised "ValueError";
  go_figure := Returned "Figure()"
}.

Definition toy_entry (y : Z) : json unit :=
  JObj [("year", JScalar (SInt y)); ("numerical_value", JScalar (SInt 7%Z))].

Definition toy_entry_without_year : json unit :=
  JObj [("numerical_value", JScalar (SInt 7%Z))].

Definition toy_feature (name : string) (entries : list (json unit)) : json unit :=
  JObj [("type", JScalar (SStr "Feature"));
        ("properties",
         JObj [("name", JScalar (SStr name)); ("timeseries", JArr entries)])].

Definition toy_feature_without_timeseries (name : string) : json unit :=
  JObj [("type", JScalar (SStr "Feature"));
        ("properties", JObj [("name", JScalar (SStr name))])].

Definition toy_document (features : list (json unit)) : json unit :=
  JObj [("type", JScalar (SStr "FeatureCollection")); ("features", JArr features)].

Definition toy_area : json unit :=
  toy_document
    [toy_feature "Abidjan" [toy_entry 2021%Z; toy_entry 2019%Z];
     toy_feature_without_timeseries "Bouake";
     toy_feature "Daloa" [toy_entry_without_year; toy_entry 2020%Z; toy_entry 2019%Z]].

Definition toy_yield : json unit :=
  toy_document
    [toy_feature "Abidjan" [toy_entry 2020%Z];
     toy_feature "Daloa" [toy_entry 2020%Z; toy_entry_without_year]].

(** A document all of whose entries have a year. *)
Definition toy_complete : json unit :=
  toy_document
    [toy_feature "Abidjan" [toy_entry 2021%Z; toy_entry 2019%Z];
     toy_feature_without_timeseries "Bouake";
     toy_feature "Daloa" [toy_entry 2020%Z]].

#[local] Instance toy_files : Files (json unit) string := {
  path_exists := fun p =>
    String.eqb p "/srv/data/cote-divoire/cote-divoire-cocoa-area-2021.geojson"
    || String.eqb p "/srv/data/cote-divoire/cote-divoire-cocoa-tn-2021.geojson"
    || String.eqb p "/srv/data/cote-divoire/cote-divoire-cocoa-yield-2021.geojson";
  json_load := fun p =>
    if String.eqb p "/srv/data/cote-divoire/cote-divoire-cocoa-area-2021.geojson"
    then Loaded toy_area
    else if String.eqb p "/srv/data/cote-divoire/cote-divoire-cocoa-yield-2021.geojson"
    then Loaded toy_yield
    else if String.eqb p "/srv/data/cote-divoire/cote-divoire-cocoa-tn-2021.geojson"
    then DecodeError "Expecting value: line 1 column 1 (char 0)"
    else OtherFault "PermissionError"
}.

(** A second world where every file exists: the first does not parse,
    opening any other is refused. *)
#[local] Instance toy_files_refused : Files (json unit) string := {
  path_exists := fun _ => true;
  json_load := fun p =>
    if String.eqb p "/srv/data/cote-divoire/cote-divoire-cocoa-area-2021.geojson"
    then DecodeError "Expecting value: line 1 column 1 (char 0)"
    else OtherFault "PermissionError"
}.

End Page1.

Example split_demo :
  PyStr.split "_"%char "tempA_2020_v2.nc" = ["tempA"; "2020"; "v2.nc"].
Proof. reflexivity. Qed.

Example grouping_demo :
  files_by_prefix (all_files ["tempA_2020.nc"; "notes.txt"; "rainB_2020.nc"; "tempA_2021.nc"])
  = [("tempA", ["Base Climate Data/tempA_2020.nc"; "Base Climate Data/tempA_2021.nc"]);
     ("rainB", ["Base Climate Data/rainB_2020.nc"])].
Proof. reflexivity. Qed.

(** ** Facts about the string primitives *)

Module PyStrFacts.
Import PyStr.

Lemma split_not_nil c s : split c s <> [].
Proof.
  destruct s as [|a s]; simpl; [discriminate|].
  destruct (Ascii.eqb a c); [discriminate|].
  destruct (split c s); discriminate.
Qed.

Lemma hd_split_cons c a s :
  hd EmptyString (split c (String a s)) =
  if Ascii.eqb a c then EmptyString else String a (hd EmptyString (split c s)).
Proof.
  simpl. destruct (Ascii.eqb a c); [reflexivity|].
  pose proof (split_not_nil c s) as Hne.
  destruct (split c s); [contradiction|reflexivity].
Qed.

Lemma contains_append c a b :
  contains c (a +++ b) = contains c a || contains c b.
Proof.
  induction a as [|x a IH]; simpl; [reflexivity|].
  rewrite IH, orb_assoc. reflexivity.
Qed.

Lemma split_without_sep c s : contains c s = false -> split c s = [s].
Proof.
  induction s as [|a s IH]; simpl; [reflexivity|].
  intros H. apply orb_false_iff in H as [Ha Hs].
  rewrite Ha, (IH Hs). reflexivity.
Qed.

Lemma split_append_sep c a b :
  split c (a +++ String c b) = split c a ++ split c b.
Proof.
  induction a as [|x a IH]; simpl.
  - rewrite Ascii.eqb_refl. reflexivity.
  - destruct (Ascii.eqb x c); rewrite IH; [reflexivity|].
    pose proof (split_not_nil c a) as Hne.
    destruct (split c a); [contradiction|reflexivity].
Qed.

Lemma last_app_right {A} (l1 l2 : list A) d :
  l2 <> [] -> last (l1 ++ l2) d = last l2 d.
Proof.
  intros Hne. induction l1 as [|x l1 IH]; [reflexivity|].
  simpl. rewrite IH. destruct (l1 ++ l2) eqn:E; [|reflexivity].
  apply app_eq_nil in E. destruct E; contradiction.
Qed.

Lemma startswith_spec s p :
  startswith s p = true <-> exists r, s = p +++ r.
Proof.
  revert s. induction p as [|b p IH]; intros s; simpl.
  - split; [intros _; exists s; reflexivity|intros _; destruct s; reflexivity].
  - destruct s as [|a s]; simpl.
    + split; [discriminate|intros [r Hr]; discriminate].
    + rewrite andb_true_iff, Ascii.eqb_eq, IH. split.
      * intros [-> [r ->]]. exists r. reflexivity.
      * intros [r Hr]. injection Hr as -> ->. split; [reflexivity|exists r; reflexivity].
Qed.

Lemma endswith_spec s suf :
  endswith s suf = true <-> exists p, s = p +++ suf.
Proof.
  induction s as [|a s IH]; cbn [endswith].
  - rewrite orb_false_r, String.eqb_eq. split.
    + intros <-. exists EmptyString. reflexivity.
    + intros [p Hp]. destruct p; simpl in Hp; [exact Hp|discriminate].
  - rewrite orb_true_iff, String.eqb_eq, IH. split.
    + intros [<- | [p ->]].
      * exists EmptyString. reflexivity.
      * exists (String a p). reflexivity.
    + intros [p Hp]. destruct p as [|b p]; simpl in Hp.
      * left. exact Hp.
      * right. injection Hp as _ ->. exists p. reflexivity.
Qed.

(** A string has one decomposition around its first separator. *)
Lemma first_sep_unique c a b a' b' :
  contains c a = false -> contains c a' = false ->
  a +++ String c b = a' +++ String c b' -> a = a'.
Proof.
  revert a'. induction a as [|x a IH]; intros [|y a'] Ha Ha' E; simpl in *.
  - reflexivity.
  - injection E as <- _. apply orb_false_iff in Ha' as [Hy _].
    rewrite Ascii.eqb_refl in Hy. discriminate.
  - injection E as -> _. apply orb_false_iff in Ha as [Hx _].
    rewrite Ascii.eqb_refl in Hx. discriminate.
  - injection E as -> E.
    apply orb_false_iff in Ha as [_ Ha]. apply orb_false_iff in Ha' as [_ Ha'].
    f_equal. exact (IH a' Ha Ha' E).
Qed.

End PyStrFacts.

Module OsPathFacts.
Import PyStr PyStrFacts OsPath.

Lemma basename_append d f :
  contains sep f = false -> basename (d +++ String sep f) = f.
Proof.
  intros Hf. unfold basename.
  rewrite split_append_sep, last_app_right by apply split_not_nil.
  rewrite (split_without_sep _ _ Hf). reflexivity.
Qed.

End OsPathFacts.

(** ** Facts about discovery and grouping *)

Section Grouping.
Import PyStr PyStrFacts.

Lemma prefix_of_empty : prefix_of EmptyString = EmptyString.
Proof. reflexivity. Qed.

Lemma prefix_of_cons a s :
  prefix_of (String a s) =
  if Ascii.eqb a "_" then EmptyString else String a (prefix_of s).
Proof. apply hd_split_cons. Qed.

Lemma prefix_of_no_sep f : contains "_" (prefix_of f) = false.
Proof.
  induction f as [|a f IH]; [reflexivity|].
  rewrite prefix_of_cons. destruct (Ascii.eqb a "_") eqn:E; [reflexivity|].
  simpl. rewrite E, IH. reflexivity.
Qed.

Lemma prefix_of_without_sep f : contains "_" f = false -> prefix_of f = f.
Proof.
  intros H. unfold prefix_of. rewrite (split_without_sep _ _ H). reflexivity.
Qed.

Lemma prefix_of_with_sep f :
  contains "_" f = true -> exists rest, f = prefix_of f +++ String "_" rest.
Proof.
  induction f as [|a f IH]; simpl; [discriminate|].
  rewrite prefix_of_cons. destruct (Ascii.eqb a "_") eqn:E; simpl.
  - intros _. apply Ascii.eqb_eq in E as ->. exists f. reflexivity.
  - intros H. destruct (IH H) as [rest Hr]. exists rest. rewrite <- Hr. reflexivity.
Qed.

Lemma prefix_of_append p rest :
  contains "_" p = false -> prefix_of (p +++ String "_" rest) = p.
Proof.
  intros H. unfold prefix_of.
  rewrite split_append_sep, (split_without_sep _ _ H). reflexivity.
Qed.

Lemma join_search_directory f :
  OsPath.join search_directory f =
  if startswith f "/" then f else "Base Climate Data/" +++ f.
Proof. unfold OsPath.join, OsPath.sep. destruct (startswith f "/"); reflexivity. Qed.

Lemma join_search_directory_inj f g :
  OsPath.join search_directory f = OsPath.join search_directory g -> f = g.
Proof.
  rewrite !join_search_directory.
  destruct (startswith f "/") eqn:Ef, (startswith g "/") eqn:Eg; intros E.
  - exact E.
  - subst f. discriminate Ef.
  - subst g. discriminate Eg.
  - injection E as E. exact E.
Qed.

Lemma basename_join f :
  contains "/" f = false -> OsPath.basename (OsPath.join search_directory f) = f.
Proof.
  intros H. rewrite join_search_directory.
  destruct f as [|a f]; [reflexivity|].
  simpl in H. apply orb_false_iff in H as [Ha Hf].
  destruct (startswith (String a f) "/") eqn:E.
  { apply startswith_spec in E as [r Hr]. injection Hr as -> _.
    rewrite Ascii.eqb_refl in Ha. discriminate. }
  change ("Base Climate Data/" +++ String a f)
    with ("Base Climate Data" +++ String OsPath.sep (String a f)).
  apply OsPathFacts.basename_append.
  unfold OsPath.sep. simpl. rewrite Ha, Hf. reflexivity.
Qed.

Lemma first_occurrences_In x l : In x (first_occurrences l) <-> In x l.
Proof.
  induction l as [|a l IH]; simpl; [tauto|].
  rewrite filter_In, IH, negb_true_iff, String.eqb_neq.
  destruct (string_dec a x) as [->|Hne]; [tauto|].
  split; [tauto|]. intros [H|H]; [tauto|]. right. split; [exact H|congruence].
Qed.

Lemma first_occurrences_NoDup l : NoDup (first_occurrences l).
Proof.
  induction l as [|a l IH]; simpl; constructor.
  - rewrite filter_In, String.eqb_refl. intros [_ H]. discriminate.
  - apply NoDup_filter. exact IH.
Qed.

Lemma first_occurrences_snoc_old x l :
  In x l -> first_occurrences (l ++ [x]) = first_occurrences l.
Proof.
  induction l as [|a l IH]; simpl; [tauto|].
  intros Hin. destruct (in_dec string_dec x l) as [Hl|Hl].
  - rewrite (IH Hl). reflexivity.
  - destruct Hin as [->|Hin]; [|contradiction].
    assert (E : first_occurrences (l ++ [x]) = first_occurrences l ++ [x]).
    { clear IH. induction l as [|b l IHl]; simpl; [reflexivity|].
      assert (Hb : b <> x) by (intros ->; apply Hl; left; reflexivity).
      rewrite IHl by (intros H; apply Hl; right; exact H).
      rewrite filter_app. simpl.
      apply String.eqb_neq in Hb. rewrite String.eqb_sym, Hb. reflexivity. }
    rewrite E, filter_app. simpl. rewrite String.eqb_refl. simpl.
    rewrite app_nil_r. reflexivity.
Qed.

Lemma first_occurrences_snoc_new x l :
  ~ In x l -> first_occurrences (l ++ [x]) = first_occurrences l ++ [x].
Proof.
  induction l as [|b l IHl]; simpl; [reflexivity|].
  intros Hl.
  assert (Hb : b <> x) by (intros ->; apply Hl; left; reflexivity).
  rewrite IHl by (intros H; apply Hl; right; exact H).
  rewrite filter_app. simpl.
  apply String.eqb_neq in Hb. rewrite String.eqb_sym, Hb. reflexivity.
Qed.

Lemma dict_append_present (g : string -> list string) k v ks :
  NoDup ks -> In k ks ->
  dict_append k v (map (fun k' => (k', g k')) ks) =
  map (fun k' => (k', if String.eqb k' k then g k' ++ [v] else g k')) ks.
Proof.
  induction ks as [|a ks IH]; simpl; [tauto|].
  intros Hnd Hin. inversion Hnd as [|? ? Ha Hks]; subst.
  destruct (String.eqb a k) eqn:E.
  - apply String.eqb_eq in E as ->. f_equal.
    apply map_ext_in. intros k' Hk'.
    destruct (String.eqb k' k) eqn:E'; [|reflexivity].
    apply String.eqb_eq in E' as ->. contradiction.
  - f_equal. apply IH; [exact Hks|].
    destruct Hin as [->|Hin]; [|exact Hin].
    rewrite String.eqb_refl in E. discriminate.
Qed.

Lemma dict_append_absent (g : string -> list string) k v ks :
  ~ In k ks ->
  dict_append k v (map (fun k' => (k', g k')) ks) =
  map (fun k' => (k', g k')) ks ++ [(k, [v])].
Proof.
  induction ks as [|a ks IH]; simpl; [reflexivity|].
  intros Hin. destruct (String.eqb a k) eqn:E.
  - apply String.eqb_eq in E. tauto.
  - f_equal. apply IH. tauto.
Qed.

Lemma files_with_prefix_snoc k l f :
  files_with_prefix k (l ++ [f]) =
  files_with_prefix k l ++
  (if String.eqb (prefix_of f) k then [OsPath.join search_directory f] else []).
Proof.
  unfold files_with_prefix. rewrite filter_app, map_app. simpl.
  destruct (String.eqb (prefix_of f) k); reflexivity.
Qed.

Lemma files_with_prefix_none k l :
  ~ In k (map prefix_of l) -> files_with_prefix k l = [].
Proof.
  intros H. unfold files_with_prefix.
  replace (filter (fun f => String.eqb (prefix_of f) k) l) with (@nil string);
    [reflexivity|].
  symmetry. induction l as [|a l IH]; simpl; [reflexivity|].
  destruct (String.eqb (prefix_of a) k) eqn:E.
  - apply String.eqb_eq in E. exfalso. apply H. left. exact E.
  - apply IH. intros Hin. apply H. right. exact Hin.
Qed.

(** The dictionary built by the loop, in closed form: one entry per
    distinct prefix, in order of first occurrence, holding the paths of
    the files with that prefix in listing order. *)
Lemma files_by_prefix_closed_form l :
  files_by_prefix l =
  map (fun k => (k, files_with_prefix k l)) (first_occurrences (map prefix_of l)).
Proof.
  induction l as [|f l IH] using rev_ind; [reflexivity|].
  unfold files_by_prefix in *. rewrite fold_left_app. simpl. rewrite IH.
  rewrite map_app. simpl.
  destruct (in_dec string_dec (prefix_of f) (map prefix_of l)) as [Hin|Hin].
  - rewrite first_occurrences_snoc_old by exact Hin.
    rewrite dict_append_present;
      [|apply first_occurrences_NoDup|apply first_occurrences_In; exact Hin].
    apply map_ext. intros k. rewrite files_with_prefix_snoc.
    rewrite String.eqb_sym.
    destruct (String.eqb (prefix_of f) k); [reflexivity|].
    rewrite app_nil_r. reflexivity.
  - rewrite first_occurrences_snoc_new by exact Hin.
    rewrite dict_append_absent by (rewrite first_occurrences_In; exact Hin).
    rewrite map_app. simpl. f_equal.
    + apply map_ext_in. intros k Hk. rewrite files_with_prefix_snoc.
      destruct (String.eqb (prefix_of f) k) eqn:E.
      * apply String.eqb_eq in E. subst k.
        apply (proj1 (first_occurrences_In _ _)) in Hk. contradiction.
      * rewrite app_nil_r. reflexivity.
    + rewrite files_with_prefix_snoc, String.eqb_refl.
      rewrite files_with_prefix_none by exact Hin. reflexivity.
Qed.

Lemma files_by_prefix_keys l :
  map fst (files_by_prefix l) = first_occurrences (map prefix_of l).
Proof.
  rewrite files_by_prefix_closed_form, map_map. simpl. apply map_id.
Qed.

(** The set of line 16 is the set of keys of the dictionary. *)
Lemma prefixes_are_keys l k :
  prefixes l k = true <-> In k (map fst (files_by_prefix l)).
Proof.
  rewrite files_by_prefix_keys, first_occurrences_In.
  unfold prefixes. rewrite existsb_exists, in_map_iff.
  split; intros (f & H1 & H2); exists f.
  - apply String.eqb_eq in H2. tauto.
  - split; [exact H2|]. apply String.eqb_eq. exact H1.
Qed.

Lemma files_by_prefix_In k fps l :
  In (k, fps) (files_by_prefix l) <->
  In k (map prefix_of l) /\ fps = files_with_prefix k l.
Proof.
  rewrite files_by_prefix_closed_form, in_map_iff. split.
  - intros (k' & E & Hk'). injection E as -> <-.
    split; [apply first_occurrences_In; exact Hk'|reflexivity].
  - intros [Hk ->]. exists k. split; [reflexivity|].
    apply first_occurrences_In. exact Hk.
Qed.

Lemma files_by_prefix_key_no_sep k fps l :
  In (k, fps) (files_by_prefix l) -> contains "_" k = false.
Proof.
  intros H. apply files_by_prefix_In in H as [Hk _].
  apply in_map_iff in Hk as (f & <- & _). apply prefix_of_no_sep.
Qed.

Lemma lookup_closed_form (g : string -> list string) k ks :
  lookup k (map (fun k' => (k', g k')) ks) =
  if in_dec string_dec k ks then Some (g k) else None.
Proof.
  induction ks as [|a ks IH]; simpl; [reflexivity|].
  destruct (String.eqb a k) eqn:E.
  - apply String.eqb_eq in E as ->.
    destruct (string_dec k k); [reflexivity|contradiction].
  - apply String.eqb_neq in E. rewrite IH.
    destruct (string_dec a k); [contradiction|].
    destruct (in_dec string_dec k ks); reflexivity.
Qed.

Lemma lookup_files_by_prefix f l :
  In f l ->
  lookup (prefix_of f) (files_by_prefix l) = Some (files_with_prefix (prefix_of f) l).
Proof.
  intros Hf. rewrite files_by_prefix_closed_form, lookup_closed_form.
  destruct (in_dec _ _ _) as [_|Hn]; [reflexivity|].
  exfalso. apply Hn, first_occurrences_In, in_map. exact Hf.
Qed.

Lemma files_with_prefix_In f k l :
  In (OsPath.join search_directory f) (files_with_prefix k l) <->
  In f l /\ prefix_of f = k.
Proof.
  unfold files_with_prefix. rewrite in_map_iff. split.
  - intros (g & E & Hg). apply join_search_directory_inj in E. subst g.
    apply filter_In in Hg as [Hl Hk]. apply String.eqb_eq in Hk. tauto.
  - intros [Hl Hk]. exists f. split; [reflexivity|].
    apply filter_In. split; [exact Hl|]. apply String.eqb_eq. exact Hk.
Qed.

Lemma files_with_prefix_from k l fp :
  In fp (files_with_prefix k l) ->
  exists f, In f l /\ prefix_of f = k /\ fp = OsPath.join search_directory f.
Proof.
  unfold files_with_prefix. rewrite in_map_iff.
  intros (f & <- & Hf). apply filter_In in Hf as [Hl Hk].
  apply String.eqb_eq in Hk. exists f. tauto.
Qed.

Lemma concat_insert_once {A} (h : string -> list A) x k0 ks :
  NoDup ks -> In k0 ks ->
  Permutation
    (List.concat
       (map (fun k => (if String.eqb k0 k then [x] else []) ++ h k) ks))
    (x :: List.concat (map h ks)).
Proof.
  induction ks as [|b ks IH]; simpl; [tauto|].
  intros Hnd Hin. inversion Hnd as [|? ? Hb Hks]; subst.
  destruct (String.eqb k0 b) eqn:E.
  - apply String.eqb_eq in E. subst b. simpl. apply perm_skip.
    apply Permutation_app_head.
    erewrite map_ext_in; [apply Permutation_refl|].
    intros k Hk. simpl. destruct (String.eqb k0 k) eqn:E'; [|reflexivity].
    apply String.eqb_eq in E'. subst k. contradiction.
  - apply String.eqb_neq in E. simpl.
    assert (Hin' : In k0 ks) by (destruct Hin as [->|H]; [contradiction|exact H]).
    eapply Permutation_trans.
    + apply Permutation_app_head. exact (IH Hks Hin').
    + apply Permutation_sym, Permutation_middle.
Qed.

Lemma concat_nils {A B} (l : list A) : List.concat (map (fun _ => @nil B) l) = [].
Proof. induction l; simpl; auto. Qed.

(** The groups taken together hold each listed file once. *)
Lemma grouped_permutation ks l :
  NoDup ks -> (forall f, In f l -> In (prefix_of f) ks) ->
  Permutation
    (List.concat (map (fun k => files_with_prefix k l) ks))
    (map (OsPath.join search_directory) l).
Proof.
  intros Hnd. induction l as [|a l IH]; intros Hall.
  - unfold files_with_prefix. simpl. rewrite concat_nils. constructor.
  - simpl map at 2.
    eapply Permutation_trans;
      [|apply perm_skip, IH; intros f Hf; apply Hall; right; exact Hf].
    erewrite map_ext.
    + apply (concat_insert_once (fun k => files_with_prefix k l)
               (OsPath.join search_directory a) (prefix_of a) ks Hnd).
      apply Hall. left. reflexivity.
    + intros k. unfold files_with_prefix. simpl.
      destruct (String.eqb (prefix_of a) k); reflexivity.
Qed.

Lemma files_by_prefix_members l :
  map snd (files_by_prefix l) =
  map (fun k => files_with_prefix k l) (first_occurrences (map prefix_of l)).
Proof. rewrite files_by_prefix_closed_form, map_map. reflexivity. Qed.

Lemma files_by_prefix_permutation l :
  Permutation (List.concat (map snd (files_by_prefix l)))
              (map (OsPath.join search_directory) l).
Proof.
  rewrite files_by_prefix_members. apply grouped_permutation.
  - apply first_occurrences_NoDup.
  - intros f Hf. apply first_occurrences_In, in_map. exact Hf.
Qed.

Lemma all_files_In f listing :
  In f (all_files listing) <->
  In f listing /\ exists stem, f = stem +++ ".nc".
Proof.
  unfold all_files. rewrite filter_In, endswith_spec. reflexivity.
Qed.

Lemma prefix_empty_iff f :
  f <> EmptyString ->
  String.eqb (prefix_of f) EmptyString = startswith f "_".
Proof.
  destruct f as [|a f]; [congruence|]. intros _.
  rewrite prefix_of_cons. simpl.
  destruct (Ascii.eqb a "_"); [destruct f|]; reflexivity.
Qed.

Lemma singleton_of_all_equal (a : string) l :
  NoDup l -> In a l -> (forall x, In x l -> x = a) -> l = [a].
Proof.
  intros Hnd Hin Hall. destruct l as [|x l]; [contradiction|].
  assert (x = a) by (apply Hall; left; reflexivity). subst x.
  destruct l as [|y l]; [reflexivity|].
  assert (y = a) by (apply Hall; right; left; reflexivity). subst y.
  inversion Hnd as [|? ? Hn _]. exfalso. apply Hn. left. reflexivity.
Qed.

End Grouping.

(** ** Facts about the monad and the loops *)

Section ScriptFacts.

Context {Dataset Attrs Fault : Type} {X : Xarray Dataset Attrs Fault}.

Local Abbreviation log := (@log Dataset Attrs).
Local Abbreviation Run := (@Run Dataset Attrs Fault).

Lemma bind_returned {A B} t (a : A) (k : A -> Run B) :
  bind (t, Returned a) k = (t ++ fst (k a), snd (k a)).
Proof. unfold bind. destruct (k a). reflexivity. Qed.

Lemma bind_raised {A B} t e (k : A -> Run B) :
  bind (t, Raised e) k = (t, Raised e).
Proof. reflexivity. Qed.

Lemma for_each_emit {A} (h : A -> event Dataset Attrs) l :
  for_each (fun x => emit (h x)) l = ((map h l, Returned tt) : Run unit).
Proof.
  induction l as [|x l IH]; [reflexivity|].
  cbn [for_each]. unfold emit at 1. rewrite bind_returned, IH. reflexivity.
Qed.

Lemma for_each_all_return {A} (body : A -> Run unit) l :
  Forall (fun x => snd (body x) = Returned tt) l ->
  for_each body l = (List.concat (map (fun x => fst (body x)) l), Returned tt).
Proof.
  induction 1 as [|x l Hx _ IH]; [reflexivity|].
  cbn [for_each map List.concat]. destruct (body x) as [t r] eqn:E. simpl in Hx. subst r.
  rewrite bind_returned, IH. reflexivity.
Qed.

Lemma for_each_raise {A} (body : A -> Run unit) l1 x l2 t e :
  Forall (fun x => snd (body x) = Returned tt) l1 ->
  body x = (t, Raised e) ->
  for_each body (l1 ++ x :: l2) =
  (List.concat (map (fun x => fst (body x)) l1) ++ t, Raised e).
Proof.
  intros Hl1 Hx. induction Hl1 as [|y l Hy _ IH]; cbn [for_each map List.concat app].
  - rewrite Hx. reflexivity.
  - destruct (body y) as [ty r] eqn:E. simpl in Hy. subst r.
    rewrite bind_returned, IH. simpl. rewrite app_assoc. reflexivity.
Qed.

(** A loop either runs every iteration, or stops at the first one that
    raises. *)
Lemma for_each_cases {A} (body : A -> Run unit) l :
  Forall (fun x => snd (body x) = Returned tt) l \/
  exists l1 x l2 e,
    l = l1 ++ x :: l2 /\
    Forall (fun x => snd (body x) = Returned tt) l1 /\
    snd (body x) = Raised e.
Proof.
  induction l as [|x l IH]; [left; constructor|].
  destruct (body x) as [t [[]|e]] eqn:E.
  - destruct IH as [IH|(l1 & y & l2 & e & -> & Hl1 & Hy)].
    + left. constructor; [rewrite E; reflexivity|exact IH].
    + right. exists (x :: l1), y, l2, e. repeat split; [|exact Hy].
      constructor; [rewrite E; reflexivity|exact Hl1].
  - right. exists [], x, l, e. repeat split; [constructor|rewrite E; reflexivity].
Qed.

Lemma record_vars_eq fp d names :
  record_vars fp d names =
  names ++ map (fun v => mkRecord (OsPath.basename fp) v (attrs d v)) (data_vars d).
Proof.
  unfold record_vars. revert names.
  induction (data_vars d) as [|v vs IH]; intros names; simpl.
  - rewrite app_nil_r. reflexivity.
  - rewrite IH, <- app_assoc. reflexivity.
Qed.

Lemma open_files_returns fps dss :
  opens_to fps dss ->
  forall dss0 names0,
    open_files fps dss0 names0 =
    (map Open fps, Returned (dss0 ++ dss, names0 ++ metadata_of fps dss)).
Proof.
  induction 1 as [|fp d fps dss Hfp _ IH]; intros dss0 names0; cbn [open_files].
  - unfold metadata_of. simpl. rewrite !app_nil_r. reflexivity.
  - unfold emit, lift. rewrite bind_returned. cbn [fst snd]. rewrite Hfp.
    rewrite bind_returned, IH, record_vars_eq. simpl.
    unfold metadata_of. simpl. rewrite <- !app_assoc. reflexivity.
Qed.

Lemma open_files_raises before fp after dss e :
  opens_to before dss ->
  open_dataset fp = Raised e ->
  forall dss0 names0,
    open_files (before ++ fp :: after) dss0 names0 =
    (map Open (before ++ [fp]), Raised e).
Proof.
  induction 1 as [|fp' d fps dss Hfp _ IH]; intros Hraise dss0 names0;
    cbn [open_files app]; unfold emit, lift; rewrite bind_returned; cbn [fst snd].
  - rewrite Hraise. reflexivity.
  - rewrite Hfp, bind_returned, (IH Hraise). reflexivity.
Qed.

(** Every file opens, or there is a first one that does not. *)
Lemma opens_cases fps :
  (exists dss, opens_to fps dss) \/
  (exists before fp after dss e,
     fps = before ++ fp :: after /\ opens_to before dss /\
     open_dataset fp = Raised e).
Proof.
  induction fps as [|fp fps IH].
  - left. exists []. constructor.
  - destruct (open_dataset fp) as [d|e] eqn:E.
    + destruct IH as [[dss H]|(before & fp' & after & dss & e & -> & Hb & He)].
      * left. exists (d :: dss). constructor; assumption.
      * right. exists (fp :: before), fp', after, (d :: dss), e.
        repeat split; [constructor; assumption|exact He].
    + right. exists [], fp, fps, [], e. repeat split; [constructor|exact E].
Qed.

Lemma opens_to_length fps dss :
  opens_to fps dss -> List.length dss = List.length fps.
Proof. intros H. symmetry. exact (Forall2_length H). Qed.

Lemma opens_to_unique fps dss dss' :
  opens_to fps dss -> opens_to fps dss' -> dss = dss'.
Proof.
  intros H. revert dss'. induction H as [|fp d fps dss Hfp _ IH];
    intros dss' H'; inversion H' as [|? d' ? dss'' Hfp' Hrest]; subst.
  - reflexivity.
  - rewrite Hfp in Hfp'. injection Hfp' as ->. f_equal. apply IH. exact Hrest.
Qed.

Lemma process_group_returns k fps dss c :
  group_succeeds k fps dss c ->
  process_group (k, fps) = (group_report k fps c (metadata_of fps dss), Returned tt).
Proof.
  intros (Ho & Hc & Hw). unfold process_group.
  rewrite (open_files_returns _ _ Ho). cbv [bind lift].
  cbn [app]. rewrite Hc, Hw, for_each_emit. reflexivity.
Qed.

Lemma process_group_raises k fps e tried :
  raises_in k fps e tried ->
  process_group (k, fps) = (map Open tried, Raised e).
Proof.
  intros H. unfold process_group.
  destruct H as [before fp after dss -> Ho He | dss Ho Hc | dss c Ho Hc Hw].
  - rewrite (open_files_raises _ _ _ _ _ Ho He). reflexivity.
  - rewrite (open_files_returns _ _ Ho). cbv [bind lift emit].
    cbn [app]. rewrite Hc, app_nil_r. reflexivity.
  - rewrite (open_files_returns _ _ Ho). cbv [bind lift emit].
    cbn [app]. rewrite Hc, Hw, app_nil_r. reflexivity.
Qed.

(** A group either succeeds or raises in one of the three calls. *)
Lemma group_cases k fps :
  (exists dss c, group_succeeds k fps dss c) \/
  (exists e tried, raises_in k fps e tried).
Proof.
  destruct (opens_cases fps) as [[dss Ho]|(before & fp & after & dss & e & E & Ho & He)].
  - destruct (concat dss) as [c|e] eqn:Hc.
    + destruct (to_netcdf c (output_path k (metadata_of fps dss))) as [[]|e] eqn:Hw.
      * left. exists dss, c. repeat split; assumption.
      * right. exists e, fps. eapply to_netcdf_raises; eassumption.
    + right. exists e, fps. eapply concat_raises; eassumption.
  - right. exists e, (before ++ [fp]). eapply open_raises; eassumption.
Qed.

Lemma process_group_returned_inv k fps t u :
  process_group (k, fps) = (t, Returned u) ->
  exists dss c,
    group_succeeds k fps dss c /\ t = group_report k fps c (metadata_of fps dss).
Proof.
  intros H. destruct (group_cases k fps) as [(dss & c & Hs)|(e & tried & Hr)].
  - exists dss, c. split; [exact Hs|].
    rewrite (process_group_returns _ _ _ _ Hs) in H. congruence.
  - rewrite (process_group_raises _ _ _ _ Hr) in H. discriminate.
Qed.

Lemma process_group_raised_inv k fps t e :
  process_group (k, fps) = (t, Raised e) ->
  exists tried, raises_in k fps e tried /\ t = map Open tried.
Proof.
  intros H. destruct (group_cases k fps) as [(dss & c & Hs)|(e' & tried & Hr)].
  - rewrite (process_group_returns _ _ _ _ Hs) in H. discriminate.
  - exists tried. rewrite (process_group_raises _ _ _ _ Hr) in H.
    injection H as <- <-. split; [exact Hr|reflexivity].
Qed.

(** *** Observations on the log of a group *)

Lemma opened_paths_app (t1 t2 : log) :
  opened_paths (t1 ++ t2) = opened_paths t1 ++ opened_paths t2.
Proof. apply flat_map_app. Qed.

Lemma opened_paths_opens fps : opened_paths (map Open fps : log) = fps.
Proof. induction fps as [|fp fps IH]; simpl; [|rewrite IH]; reflexivity. Qed.

Lemma opened_paths_entries (names : list (MetadataRecord Attrs)) : opened_paths (map PrintEntry names : log) = [].
Proof. induction names; simpl; auto. Qed.

Lemma opened_paths_report k fps (c : Dataset) (names : list (MetadataRecord Attrs)) :
  opened_paths (group_report k fps c names) = fps.
Proof.
  unfold group_report. rewrite opened_paths_app, opened_paths_opens. simpl.
  fold (opened_paths (map PrintEntry names : log)).
  rewrite opened_paths_entries. apply app_nil_r.
Qed.

Lemma saved_files_opens fps : saved_files (map Open fps : log) = [].
Proof. induction fps; simpl; auto. Qed.

Lemma saved_files_entries (names : list (MetadataRecord Attrs)) : saved_files (map PrintEntry names : log) = [].
Proof. induction names; simpl; auto. Qed.

Lemma saved_files_report k fps (c : Dataset) (names : list (MetadataRecord Attrs)) :
  saved_files (group_report k fps c names) = [(output_path k names, c)].
Proof.
  unfold group_report, saved_files. rewrite flat_map_app.
  fold (saved_files (map Open fps : log)). rewrite saved_files_opens. simpl.
  fold (saved_files (map PrintEntry names : log)).
  rewrite saved_files_entries. reflexivity.
Qed.

Lemma printed_entries_opens fps : printed_entries (map Open fps : log) = [].
Proof. induction fps; simpl; auto. Qed.

Lemma printed_entries_report k fps (c : Dataset) (names : list (MetadataRecord Attrs)) :
  printed_entries (group_report k fps c names) = names.
Proof.
  unfold group_report, printed_entries. rewrite flat_map_app.
  fold (printed_entries (map Open fps : log)). rewrite printed_entries_opens.
  simpl. induction names as [|r names IH]; simpl; [|rewrite IH]; reflexivity.
Qed.

Lemma forallb_is_open fps : forallb is_open (map Open fps : log) = true.
Proof. induction fps; simpl; auto. Qed.

(** *** The disk *)

Lemma disk_app (t1 t2 : log) p :
  disk (t1 ++ t2) p =
  match disk t2 p with
  | Some d => Some d
  | None => disk t1 p
  end.
Proof.
  unfold disk. rewrite fold_left_app.
  generalize (fold_left
    (fun cur ev => match ev with
                   | Save q d => if String.eqb q p then Some d else cur
                   | _ => cur
                   end) t1 (@None Dataset)).
  induction t2 as [|ev t2 IH] using rev_ind; intros init.
  - simpl. reflexivity.
  - rewrite !fold_left_app. simpl.
    destruct ev as [fp|q d|line|entry]; try apply IH.
    destruct (String.eqb q p); [reflexivity|apply IH].
Qed.

Lemma disk_without_saves (t : log) p : saved_files t = [] -> disk t p = None.
Proof.
  induction t as [|ev t IH] using rev_ind; [reflexivity|].
  unfold saved_files. rewrite flat_map_app. intros H.
  apply app_eq_nil in H as [Ht Hev].
  rewrite disk_app. destruct ev; simpl in *; try (apply IH; exact Ht).
  discriminate.
Qed.

Lemma disk_report k fps (c : Dataset) (names : list (MetadataRecord Attrs)) p :
  disk (group_report k fps c names) p =
  if String.eqb (output_path k names) p then Some c else None.
Proof.
  unfold group_report.
  change (Save (output_path k names) c
          :: Print (saved_line k (output_path k names))
          :: Print "Extracted Metadata:" :: map PrintEntry names)
    with ([Save (output_path k names) c]
          ++ (Print (saved_line k (output_path k names))
              :: Print "Extracted Metadata:" :: map PrintEntry names : log)).
  rewrite !disk_app.
  rewrite (disk_without_saves (_ :: _ :: map PrintEntry names))
    by (simpl; apply saved_files_entries).
  rewrite (disk_without_saves (map Open fps)) by apply saved_files_opens.
  unfold disk. simpl. destruct (String.eqb (output_path k names) p); reflexivity.
Qed.

(** *** Output paths of distinct prefixes are distinct *)

Lemma append_inv_head p a b : p +++ a = p +++ b -> a = b.
Proof.
  induction p as [|x p IH]; simpl; [tauto|].
  intros E. injection E as E. exact (IH E).
Qed.

Lemma output_path_inj k k' (names names' : list (MetadataRecord Attrs)) :
  PyStr.contains "_" k = false -> PyStr.contains "_" k' = false ->
  output_path k names = output_path k' names' -> k = k'.
Proof.
  intros Hk Hk'. unfold output_path.
  destruct names as [|r names], names' as [|r' names']; intros E.
  - apply (append_inv_head "/src/data/Processed Climate Data/combined_") in E.
    exact (PyStrFacts.first_sep_unique _ _ _ _ _ Hk Hk' E).
  - discriminate E.
  - discriminate E.
  - apply (append_inv_head "src/data/Processed Climate Data/combined_") in E.
    exact (PyStrFacts.first_sep_unique _ _ _ _ _ Hk Hk' E).
Qed.

(** *** The whole run *)

Lemma raises_in_tried k fps e tried :
  raises_in k fps e tried -> exists untried, fps = tried ++ untried.
Proof.
  intros [before fp after dss -> _ _ | dss _ _ | dss c _ _ _].
  - exists after. rewrite <- app_assoc. reflexivity.
  - exists []. rewrite app_nil_r. reflexivity.
  - exists []. rewrite app_nil_r. reflexivity.
Qed.

Lemma returned_group_log g :
  snd (process_group g) = Returned tt ->
  exists dss c,
    group_succeeds (fst g) (snd g) dss c /\
    fst (process_group g) = group_report (fst g) (snd g) c (metadata_of (snd g) dss).
Proof.
  destruct g as [k fps]. destruct (process_group (k, fps)) as [t r] eqn:E.
  simpl. intros ->. exact (process_group_returned_inv _ _ _ _ E).
Qed.

(** The log of a run: the complete logs of the groups that returned, in
    dictionary order, then, if a group raised, the opens it tried. *)
Lemma run_log_shape listing t r :
  run listing = (t, r) ->
  exists done rest tail,
    files_by_prefix (all_files listing) = done ++ rest /\
    Forall (fun g => snd (process_group g) = Returned tt) done /\
    t = List.concat (map (fun g => fst (process_group g)) done) ++ tail /\
    ((r = Returned tt /\ rest = [] /\ tail = []) \/
     (exists k fps rest' e tried,
        rest = (k, fps) :: rest' /\ r = Raised e /\
        raises_in k fps e tried /\ tail = map Open tried)).
Proof.
  unfold run. intros H.
  destruct (for_each_cases process_group (files_by_prefix (all_files listing)))
    as [Hall|(l1 & [k fps] & l2 & e & E & Hl1 & Hx)].
  - rewrite (for_each_all_return _ _ Hall) in H. injection H as <- <-.
    exists (files_by_prefix (all_files listing)), [], [].
    rewrite !app_nil_r. repeat split; [exact Hall|]. left. repeat split.
  - destruct (process_group (k, fps)) as [tg rg] eqn:Eg. simpl in Hx. subst rg.
    rewrite E, (for_each_raise _ _ _ _ _ _ Hl1 Eg) in H. injection H as <- <-.
    destruct (process_group_raised_inv _ _ _ _ Eg) as (tried & Hr & ->).
    exists l1, ((k, fps) :: l2), (map Open tried).
    repeat split; [exact E|exact Hl1|]. right.
    exists k, fps, l2, e, tried. repeat split. exact Hr.
Qed.

Lemma opened_paths_done done :
  Forall (fun g => snd (process_group g) = Returned tt) done ->
  opened_paths (List.concat (map (fun g => fst (process_group g)) done))
  = List.concat (map snd done).
Proof.
  induction 1 as [|g done Hg _ IH]; [reflexivity|].
  simpl. rewrite opened_paths_app, IH.
  destruct (returned_group_log g Hg) as (dss & c & _ & ->).
  rewrite opened_paths_report. reflexivity.
Qed.

(** What a run opens is an initial part of the grouped paths. *)
Lemma run_opened_prefix listing t r :
  run listing = (t, r) ->
  exists unopened,
    List.concat (map snd (files_by_prefix (all_files listing)))
    = opened_paths t ++ unopened /\
    (r = Returned tt -> unopened = []).
Proof.
  intros H.
  destruct (run_log_shape _ _ _ H) as (done & rest & tail & EG & Hdone & -> & Hr).
  rewrite EG, map_app, concat_app, opened_paths_app, (opened_paths_done _ Hdone).
  destruct Hr as [(-> & -> & ->)|(k & fps & rest' & e & tried & -> & -> & Hr & ->)].
  - exists []. simpl. rewrite !app_nil_r. split; [reflexivity|tauto].
  - destruct (raises_in_tried _ _ _ _ Hr) as (untried & ->).
    exists (untried ++ List.concat (map snd rest')).
    rewrite opened_paths_opens. simpl. rewrite <- !app_assoc.
    split; [reflexivity|discriminate].
Qed.

End ScriptFacts.

(** ** Properties of discovery and grouping *)

Section GroupingProperties.
Import PyStr PyStrFacts.

Lemma discovered_not_empty f listing : In f (all_files listing) -> f <> EmptyString.
Proof.
  intros H ->. apply all_files_In in H as [_ [s Hs]].
  destruct s; discriminate.
Qed.

(** C1 (as the script has it). A discovered file is grouped under the
    text of its name before the first underscore. A discovered name
    without an underscore is its own key, extension included; its group
    holds every discovered file with that key, and is the singleton of
    that file when the listing has no duplicates and no other discovered
    name has it as prefix. *)
Theorem file_grouped_under_text_before_first_underscore listing f :
  In f (all_files listing) ->
  contains "_" (prefix_of f) = false /\
  (contains "_" f = true -> exists rest, f = prefix_of f +++ String "_" rest) /\
  (exists fps,
     lookup (prefix_of f) (files_by_prefix (all_files listing)) = Some fps /\
     In (OsPath.join search_directory f) fps) /\
  (contains "_" f = false ->
     prefix_of f = f /\
     lookup f (files_by_prefix (all_files listing))
       = Some (files_with_prefix f (all_files listing)) /\
     (NoDup listing ->
      (forall g, In g (all_files listing) -> prefix_of g = f -> g = f) ->
      lookup f (files_by_prefix (all_files listing))
        = Some [OsPath.join search_directory f])).
Proof.
  intros Hf. split; [apply prefix_of_no_sep|].
  split; [apply prefix_of_with_sep|].
  pose proof (lookup_files_by_prefix f _ Hf) as Hl.
  split.
  - eexists. split; [exact Hl|]. apply files_with_prefix_In. tauto.
  - intros Hno. pose proof (prefix_of_without_sep f Hno) as Hp.
    rewrite Hp in Hl. repeat split; [exact Hp|exact Hl|].
    intros Hnd Honly. rewrite Hl. f_equal. unfold files_with_prefix.
    rewrite (singleton_of_all_equal f
               (filter (fun g => String.eqb (prefix_of g) f) (all_files listing))).
    + reflexivity.
    + apply NoDup_filter. unfold all_files. apply NoDup_filter. exact Hnd.
    + apply filter_In. split; [exact Hf|]. apply String.eqb_eq. exact Hp.
    + intros g Hg. apply filter_In in Hg as [Hg Hk].
      apply String.eqb_eq in Hk. exact (Honly g Hg Hk).
Qed.

(** C4. The groups partition the discovered files: the keys are pairwise
    distinct, the groups taken together hold each discovered file as
    often as the listing does, a group is not empty and holds exactly the
    discovered files whose prefix is its key, and no file is in two
    groups. *)
Theorem grouping_is_partition listing :
  NoDup (map fst (files_by_prefix (all_files listing))) /\
  Permutation
    (List.concat (map snd (files_by_prefix (all_files listing))))
    (map (OsPath.join search_directory) (all_files listing)) /\
  (forall k fps,
     In (k, fps) (files_by_prefix (all_files listing)) ->
     fps <> [] /\
     forall f, In (OsPath.join search_directory f) fps <->
               In f (all_files listing) /\ prefix_of f = k) /\
  (forall f,
     In f (all_files listing) ->
     exists fps,
       In (prefix_of f, fps) (files_by_prefix (all_files listing)) /\
       In (OsPath.join search_directory f) fps) /\
  (forall f k k' fps fps',
     In (k, fps) (files_by_prefix (all_files listing)) ->
     In (k', fps') (files_by_prefix (all_files listing)) ->
     In (OsPath.join search_directory f) fps ->
     In (OsPath.join search_directory f) fps' ->
     k = k' /\ fps = fps').
Proof.
  set (files := all_files listing).
  split; [rewrite files_by_prefix_keys; apply first_occurrences_NoDup|].
  split; [apply files_by_prefix_permutation|].
  split; [|split].
  - intros k fps H. apply files_by_prefix_In in H as [Hk ->]. split.
    + apply in_map_iff in Hk as (f & Hp & Hf).
      intros E. assert (Hin : In (OsPath.join search_directory f)
                                 (files_with_prefix k files))
        by (apply files_with_prefix_In; tauto).
      rewrite E in Hin. exact Hin.
    + intros f. apply files_with_prefix_In.
  - intros f Hf. exists (files_with_prefix (prefix_of f) files). split.
    + apply files_by_prefix_In. split; [apply in_map; exact Hf|reflexivity].
    + apply files_with_prefix_In. tauto.
  - intros f k k' fps fps' H H' Hin Hin'.
    apply files_by_prefix_In in H as [_ ->].
    apply files_by_prefix_In in H' as [_ ->].
    apply files_with_prefix_In in Hin as [_ <-].
    apply files_with_prefix_In in Hin' as [_ <-]. tauto.
Qed.

(** C9. A name that begins with an underscore has the empty prefix, and
    when it is discovered the one group keyed by the empty string holds
    every discovered name that begins with an underscore, this one
    included, whatever follows the underscore. *)
Theorem leading_underscore_files_share_empty_key listing rest :
  prefix_of (String "_" rest) = EmptyString /\
  (In (String "_" rest) (all_files listing) ->
   lookup EmptyString (files_by_prefix (all_files listing))
     = Some (map (OsPath.join search_directory)
                 (filter (fun g => startswith g "_") (all_files listing))) /\
   In (OsPath.join search_directory (String "_" rest))
      (map (OsPath.join search_directory)
           (filter (fun g => startswith g "_") (all_files listing))) /\
   (forall k fps,
      In (k, fps) (files_by_prefix (all_files listing)) ->
      In (OsPath.join search_directory (String "_" rest)) fps ->
      k = EmptyString)).
Proof.
  split; [reflexivity|]. intros Hf.
  pose proof (lookup_files_by_prefix _ _ Hf) as Hl.
  change (prefix_of (String "_" rest)) with EmptyString in Hl.
  assert (E : files_with_prefix EmptyString (all_files listing) =
              map (OsPath.join search_directory)
                  (filter (fun g => startswith g "_") (all_files listing))).
  { unfold files_with_prefix. f_equal. apply filter_ext_in.
    intros g Hg. apply prefix_empty_iff. exact (discovered_not_empty _ _ Hg). }
  rewrite E in Hl. split; [exact Hl|]. split.
  - apply in_map, filter_In. split; [exact Hf|].
    apply startswith_spec. exists rest. reflexivity.
  - intros k fps Hk Hin. apply files_by_prefix_In in Hk as [_ ->].
    apply files_with_prefix_In in Hin as [_ <-]. reflexivity.
Qed.

End GroupingProperties.

(** ** Properties of the processing of groups *)

Section ScriptProperties.
Import PyStr PyStrFacts.

Context {Dataset Attrs Fault : Type} {X : Xarray Dataset Attrs Fault}.

Local Abbreviation log := (@log Dataset Attrs).

Lemma metadata_of_cons fp fps (d : Dataset) dss :
  metadata_of (fp :: fps) (d :: dss) =
  map (fun v => mkRecord (OsPath.basename fp) v (attrs d v)) (data_vars d)
  ++ metadata_of fps dss.
Proof. reflexivity. Qed.

Lemma metadata_of_length fps (dss : list Dataset) :
  List.length fps = List.length dss ->
  List.length (metadata_of fps dss)
  = list_sum (map (fun d => List.length (data_vars d)) dss).
Proof.
  revert dss. induction fps as [|fp fps IH]; intros [|d dss] H;
    try discriminate; [reflexivity|].
  rewrite metadata_of_cons, length_app, length_map. simpl.
  rewrite IH by (simpl in H; lia). reflexivity.
Qed.

Lemma metadata_of_no_vars fps (dss : list Dataset) :
  Forall (fun d => data_vars d = []) dss -> metadata_of fps dss = [].
Proof.
  intros H. revert fps. induction H as [|d dss Hd _ IH]; intros [|fp fps];
    try reflexivity.
  rewrite metadata_of_cons, Hd, IH. reflexivity.
Qed.

(** C5. When the files of a group open, the loop returns the datasets
    and, as [data_names], one record per file and variable: files in
    their order, within a file its variables in their order, each record
    with the base name of the file, the name of the variable and its
    attributes. Their number is the sum of the variable counts, and they
    are what the report of the group prints. The files of a group are in
    listing order, and the base name of a path built from a listed name
    is that name. *)
Theorem metadata_in_file_then_variable_order fps dss :
  opens_to fps dss ->
  open_files fps [] [] = (map Open fps, Returned (dss, metadata_of fps dss)) /\
  metadata_of fps dss =
    flat_map
      (fun fd =>
         map (fun v => {| file_name := OsPath.basename (fst fd);
                          variable_name := v;
                          attributes := attrs (snd fd) v |})
             (data_vars (snd fd)))
      (combine fps dss) /\
  List.length (metadata_of fps dss)
    = list_sum (map (fun d => List.length (data_vars d)) dss) /\
  (forall k c,
     group_succeeds k fps dss c ->
     printed_entries (fst (process_group (k, fps))) = metadata_of fps dss) /\
  (forall listing k,
     In (k, fps) (files_by_prefix (all_files listing)) ->
     fps = map (OsPath.join search_directory)
               (filter (fun f => String.eqb (prefix_of f) k) (all_files listing))) /\
  (forall f,
     contains "/" f = false ->
     OsPath.basename (OsPath.join search_directory f) = f).
Proof.
  intros Ho. split; [exact (open_files_returns _ _ Ho [] [])|].
  split; [reflexivity|]. split; [|split; [|split]].
  - apply metadata_of_length. symmetry. apply opens_to_length. exact Ho.
  - intros k c Hs. rewrite (process_group_returns _ _ _ _ Hs). simpl.
    apply printed_entries_report.
  - intros listing k H. apply files_by_prefix_In in H as [_ ->]. reflexivity.
  - exact basename_join.
Qed.

Lemma contains_file_name k v tail :
  contains "/" k = false -> contains "/" v = false ->
  contains "/" tail = false ->
  contains "/" ("combined_" +++ k +++ "_" +++ v +++ tail) = false.
Proof.
  intros Hk Hv Ht. rewrite !contains_append, Hk, Hv, Ht. reflexivity.
Qed.

(** C3 (as the script has it). For a group with at least one metadata
    record the file is saved at "src/data/Processed Climate Data" /
    combined_<prefix>_<first variable>_data.nc, which depends on the
    prefix and on the variable name of the first record only (another
    first record with the same variable name, and any later records,
    give the same path). For a group with files [A, B] this is
    combined_<prefix>_temp_data.nc when "temp" is the first variable of
    A, whatever else A and B hold; that both files contain "temp" is not
    enough. *)
Theorem output_path_from_prefix_and_first_variable k fps dss c entry others :
  group_succeeds k fps dss c ->
  metadata_of fps dss = entry :: others ->
  output_path k (metadata_of fps dss)
    = "src/data/Processed Climate Data" +++ "/"
      +++ ("combined_" +++ k +++ "_" +++ variable_name entry +++ "_data.nc") /\
  saved_files (fst (process_group (k, fps)))
    = [(output_path k (metadata_of fps dss), c)] /\
  (forall (entry' : MetadataRecord Attrs) others',
     variable_name entry' = variable_name entry ->
     output_path k (entry' :: others') = output_path k (metadata_of fps dss)) /\
  (contains "/" k = false -> contains "/" (variable_name entry) = false ->
   OsPath.basename (output_path k (metadata_of fps dss))
     = "combined_" +++ k +++ "_" +++ variable_name entry +++ "_data.nc") /\
  (forall A B dA dB vs,
     fps = [A; B] -> dss = [dA; dB] ->
     data_vars dA = "temp" :: vs ->
     output_path k (metadata_of fps dss)
       = "src/data/Processed Climate Data/combined_" +++ k +++ "_temp_data.nc").
Proof.
  intros Hs E. rewrite (process_group_returns _ _ _ _ Hs), E.
  split; [reflexivity|]. split; [apply saved_files_report|]. split; [|split].
  - intros entry' others' Hv. unfold output_path. rewrite Hv. reflexivity.
  - intros Hk Hv.
    change (output_path k (entry :: others))
      with ("src/data/Processed Climate Data"
            +++ String OsPath.sep
                  ("combined_" +++ k +++ "_" +++ variable_name entry +++ "_data.nc")).
    apply OsPathFacts.basename_append.
    apply contains_file_name; [exact Hk|exact Hv|reflexivity].
  - intros A B dA dB vs -> -> HA.
    rewrite metadata_of_cons, HA in E. injection E as <- _. reflexivity.
Qed.

(** C2 (the script as it is). For a group whose files hold no variable
    the file name is combined_<prefix>_climate_data.nc, but the path
    starts with a separator: the directory is "/src/data/Processed
    Climate Data", whereas the branch with a variable name saves under
    "src/data/Processed Climate Data". *)
Theorem fallback_path_has_leading_separator k fps dss c :
  group_succeeds k fps dss c ->
  Forall (fun d => data_vars d = []) dss ->
  metadata_of fps dss = [] /\
  saved_files (fst (process_group (k, fps)))
    = [("/src/data/Processed Climate Data" +++ "/"
        +++ ("combined_" +++ k +++ "_climate_data.nc"), c)] /\
  (contains "/" k = false ->
   OsPath.basename (output_path k (metadata_of fps dss))
     = "combined_" +++ k +++ "_climate_data.nc") /\
  startswith (output_path k (metadata_of fps dss)) "/" = true /\
  (forall (entry : MetadataRecord Attrs) others,
     startswith (output_path k (entry :: others)) "/" = false /\
     output_path k (entry :: others)
       = "src/data/Processed Climate Data" +++ "/"
         +++ ("combined_" +++ k +++ "_" +++ variable_name entry +++ "_data.nc")).
Proof.
  intros Hs Hno. pose proof (metadata_of_no_vars fps dss Hno) as E.
  rewrite (process_group_returns _ _ _ _ Hs), E.
  split; [reflexivity|]. split; [apply saved_files_report|]. split; [|split].
  - intros Hk.
    change (output_path k (@nil (MetadataRecord Attrs)))
      with ("/src/data/Processed Climate Data"
            +++ String OsPath.sep ("combined_" +++ k +++ "_climate_data.nc")).
    apply OsPathFacts.basename_append. unfold OsPath.sep.
    rewrite !contains_append, Hk. reflexivity.
  - reflexivity.
  - intros entry others. split; reflexivity.
Qed.

(** C7. The discovered names are exactly the names of the listing that
    end in ".nc", each as often as listed and in listing order; a run
    that returns opens exactly the paths of the discovered names, and
    any run, complete or not, opens only such paths. *)
Theorem discovery_selects_by_extension listing :
  (forall f, In f (all_files listing) <->
             In f listing /\ exists name, f = name +++ ".nc") /\
  (forall f, count_occ string_dec (all_files listing) f
             = if endswith f ".nc" then count_occ string_dec listing f else 0) /\
  (forall t,
     run listing = (t, Returned tt) ->
     Permutation (opened_paths t)
                 (map (OsPath.join search_directory) (all_files listing))) /\
  (forall t r fp,
     run listing = (t, r) -> In fp (opened_paths t) ->
     exists f, In f listing /\ endswith f ".nc" = true /\
               fp = OsPath.join search_directory f).
Proof.
  split; [intros f; apply all_files_In|]. split; [|split].
  - intros f. unfold all_files.
    induction listing as [|a l IH]; simpl; [destruct (endswith f ".nc"); reflexivity|].
    destruct (endswith a ".nc") eqn:Ea; simpl; destruct (string_dec a f) as [->|Hne].
    + rewrite Ea in *. rewrite IH. reflexivity.
    + exact IH.
    + rewrite Ea in *. exact IH.
    + exact IH.
  - intros t H. destruct (run_opened_prefix _ _ _ H) as (unopened & E & Hr).
    rewrite (Hr eq_refl), app_nil_r in E. rewrite <- E.
    apply files_by_prefix_permutation.
  - intros t r fp H Hin.
    destruct (run_opened_prefix _ _ _ H) as (unopened & E & _).
    assert (Hfp : In fp (map (OsPath.join search_directory) (all_files listing))).
    { eapply Permutation_in; [apply files_by_prefix_permutation|].
      rewrite E. apply in_or_app. left. exact Hin. }
    apply in_map_iff in Hfp as (f & <- & Hf).
    exists f. unfold all_files in Hf. apply filter_In in Hf as [Hl He]. tauto.
Qed.

Lemma done_segments done :
  Forall (fun g => snd (process_group g) = Returned tt) done ->
  Forall2
    (fun g seg =>
       exists (c : Dataset) (names : list (MetadataRecord Attrs)),
         seg = map Open (snd g)
               ++ Save (output_path (fst g) names) c
               :: Print (saved_line (fst g) (output_path (fst g) names))
               :: Print "Extracted Metadata:"
               :: map PrintEntry names)
    done (map (fun g => fst (process_group g)) done).
Proof.
  induction 1 as [|g done Hg _ IH]; simpl; constructor; [|exact IH].
  destruct (returned_group_log g Hg) as (dss & c & _ & ->).
  exists c, (metadata_of (snd g) dss). reflexivity.
Qed.

(** C10. The groups are keyed, and so iterated, in order of the first
    occurrence of their prefix among the discovered names. The log of a
    run is, group after group in that order, the opens of the group, then
    its write, then its report (the line with the path, the heading, the
    records); if a group raises, the log ends with the opens it tried. *)
Theorem groups_processed_in_first_occurrence_order listing :
  map fst (files_by_prefix (all_files listing))
    = first_occurrences (map prefix_of (all_files listing)) /\
  (forall t r,
     run listing = (t, r) ->
     exists done rest segments tail,
       files_by_prefix (all_files listing) = done ++ rest /\
       t = List.concat segments ++ tail /\
       Forall2
         (fun g seg =>
            exists (c : Dataset) (names : list (MetadataRecord Attrs)),
              seg = map Open (snd g)
                    ++ Save (output_path (fst g) names) c
                    :: Print (saved_line (fst g) (output_path (fst g) names))
                    :: Print "Extracted Metadata:"
                    :: map PrintEntry names)
         done segments /\
       forallb is_open tail = true /\
       (r = Returned tt -> rest = [] /\ tail = [])).
Proof.
  split; [apply files_by_prefix_keys|].
  intros t r H.
  destruct (run_log_shape _ _ _ H) as (done & rest & tail & EG & Hdone & -> & Hr).
  exists done, rest, (map (fun g => fst (process_group g)) done), tail.
  split; [exact EG|]. split; [reflexivity|]. split; [exact (done_segments _ Hdone)|].
  destruct Hr as [(-> & -> & ->)|(k & fps & rest' & e & tried & -> & -> & _ & ->)].
  - split; [reflexivity|tauto].
  - split; [apply forallb_is_open|discriminate].
Qed.

Lemma disk_other_groups k' (names' : list (MetadataRecord Attrs)) later :
  contains "_" k' = false ->
  Forall (fun g => snd (process_group g) = Returned tt) later ->
  (forall g, In g later -> contains "_" (fst g) = false /\ fst g <> k') ->
  disk (List.concat (map (fun g => fst (process_group g)) later))
       (output_path k' names') = None.
Proof.
  intros Hk' Hall. induction Hall as [|g later Hg _ IH]; intros Hkeys; [reflexivity|].
  simpl. rewrite disk_app, IH by (intros g' Hg'; apply Hkeys; right; exact Hg').
  destruct (returned_group_log g Hg) as (dss & c & _ & ->).
  rewrite disk_report.
  destruct (String.eqb _ _) eqn:E; [|reflexivity].
  apply String.eqb_eq in E.
  destruct (Hkeys g (or_introl eq_refl)) as [Hg1 Hg2].
  apply output_path_inj in E; [contradiction|exact Hg1|exact Hk'].
Qed.

(** C8. Nothing is caught. When the groups before one have returned and
    that one raises [e] (while opening a file, concatenating, or
    writing), the run raises [e]; its log is the complete logs of the
    earlier groups followed by the opens tried in the failing group, each
    once: nothing is written or printed for the failing group and no
    later group is touched. The files written for the earlier groups are
    on disk with their content. *)
Theorem unhandled_fault_aborts_run listing done k fps rest e tried :
  files_by_prefix (all_files listing) = done ++ (k, fps) :: rest ->
  Forall (fun g => exists dss c, group_succeeds (fst g) (snd g) dss c) done ->
  raises_in k fps e tried ->
  run listing
    = (List.concat (map (fun g => fst (process_group g)) done) ++ map Open tried,
       Raised e) /\
  (exists untried, fps = tried ++ untried) /\
  (forall k' fps' dss c,
     In (k', fps') done -> group_succeeds k' fps' dss c ->
     In (Save (output_path k' (metadata_of fps' dss)) c) (fst (run listing)) /\
     disk (fst (run listing)) (output_path k' (metadata_of fps' dss)) = Some c).
Proof.
  intros EG Hdone Hr.
  assert (Hret : Forall (fun g => snd (process_group g) = Returned tt) done).
  { eapply Forall_impl; [|exact Hdone]. intros [k' fps'] (dss & c & Hs).
    simpl in Hs. rewrite (process_group_returns _ _ _ _ Hs). reflexivity. }
  assert (Hrun : run listing
    = (List.concat (map (fun g => fst (process_group g)) done) ++ map Open tried,
       Raised e)).
  { unfold run. rewrite EG.
    apply for_each_raise; [exact Hret|apply process_group_raises; exact Hr]. }
  split; [exact Hrun|]. split; [exact (raises_in_tried _ _ _ _ Hr)|].
  intros k' fps' dss c Hin Hs. rewrite Hrun. simpl fst.
  apply in_split in Hin as (earlier & later & ->).
  rewrite map_app, concat_app. cbn [map List.concat].
  rewrite (process_group_returns _ _ _ _ Hs). cbn [fst]. split.
  - apply in_or_app. left. apply in_or_app. right. apply in_or_app. left.
    unfold group_report. apply in_or_app. right. left. reflexivity.
  - assert (Hkeys : NoDup (map fst (files_by_prefix (all_files listing))))
      by (rewrite files_by_prefix_keys; apply first_occurrences_NoDup).
    assert (Hsep : forall g, In g (files_by_prefix (all_files listing)) ->
                             contains "_" (fst g) = false)
      by (intros [kg fg] Hg; exact (files_by_prefix_key_no_sep _ _ _ Hg)).
    rewrite EG in Hkeys, Hsep.
    rewrite !map_app in Hkeys. simpl in Hkeys. rewrite <- app_assoc in Hkeys.
    simpl in Hkeys. apply NoDup_remove_2 in Hkeys.
    rewrite disk_app, (disk_without_saves (map Open tried)) by apply saved_files_opens.
    rewrite disk_app, disk_app.
    rewrite disk_other_groups.
    + rewrite disk_report, String.eqb_refl. reflexivity.
    + apply (Hsep (k', fps')). apply in_or_app. left. apply in_or_app.
      right. left. reflexivity.
    + apply Forall_app in Hret as [_ Hret]. inversion Hret; assumption.
    + intros g Hg. split.
      * apply Hsep. apply in_or_app. left. apply in_or_app. right. right. exact Hg.
      * intros Heq. apply Hkeys. apply in_or_app. right. apply in_or_app. left.
        rewrite <- Heq. apply in_map. exact Hg.
Qed.

(** A group of one file concatenates the one-element list of its
    dataset: what is saved is what [concat] returns on it. *)
Lemma singleton_group_concatenates_one k fp d c :
  open_dataset fp = Returned d ->
  concat [d] = Returned c ->
  to_netcdf c (output_path k (metadata_of [fp] [d])) = Returned tt ->
  saved_files (fst (process_group (k, [fp])))
  = [(output_path k (metadata_of [fp] [d]), c)].
Proof.
  intros Ho Hc Hw.
  rewrite (process_group_returns k [fp] [d] c).
  - apply saved_files_report.
  - repeat split; [|exact Hc|exact Hw]. constructor; [exact Ho|constructor].
Qed.

End ScriptProperties.

(** ** The properties at concrete directories *)

Section Runs.
Import PyStr.

(** The listing ["temp.nc"]: the key of the group is "temp.nc", nothing
    is keyed by the stem "temp"; and with ["a.nc"; "a.nc_b.nc"] the
    group of the underscore-free name "a.nc" has two files. *)
Lemma underscore_free_name_not_keyed_by_stem :
  ~ (forall listing f,
       In f (all_files listing) -> contains "_" f = false ->
       lookup (stem f) (files_by_prefix (all_files listing))
         = Some [OsPath.join search_directory f]) /\
  stem "temp.nc" = "temp" /\
  files_by_prefix (all_files ["temp.nc"])
    = [("temp.nc", ["Base Climate Data/temp.nc"])] /\
  lookup (stem "temp.nc") (files_by_prefix (all_files ["temp.nc"])) = None /\
  files_by_prefix (all_files ["a.nc"; "a.nc_b.nc"])
    = [("a.nc", ["Base Climate Data/a.nc"; "Base Climate Data/a.nc_b.nc"])].
Proof.
  split; [|repeat split].
  intros H. specialize (H ["temp.nc"] "temp.nc" (or_introl eq_refl) eq_refl).
  vm_compute in H. discriminate H.
Qed.

Lemma file_grouped_under_text_before_first_underscore_witness :
  In "temp.nc" (all_files ["temp.nc"; "tempA_2020.nc"; "notes.txt"]) /\
  prefix_of "temp.nc" = "temp.nc" /\
  lookup "temp.nc" (files_by_prefix (all_files ["temp.nc"; "tempA_2020.nc"; "notes.txt"]))
    = Some ["Base Climate Data/temp.nc"].
Proof.
  split; [left; reflexivity|].
  destruct (file_grouped_under_text_before_first_underscore
              ["temp.nc"; "tempA_2020.nc"; "notes.txt"] "temp.nc"
              (or_introl eq_refl)) as (_ & _ & _ & H).
  destruct (H eq_refl) as (Hp & _ & Hs). split; [exact Hp|]. apply Hs.
  - repeat constructor; simpl; intuition discriminate.
  - simpl. intros g [<-|[<-|[]]] Hg; [reflexivity|vm_compute in Hg; discriminate Hg].
Defined.

Lemma fallback_path_has_leading_separator_witness :
  group_succeeds (X := toy) "void" ["Base Climate Data/void_2020.nc"] [[]] [] /\
  Forall (fun d => data_vars (Xarray := toy) d = []) [[]] /\
  saved_files (fst (process_group (X := toy) ("void", ["Base Climate Data/void_2020.nc"])))
    = [("/src/data/Processed Climate Data/combined_void_climate_data.nc", [])].
Proof.
  assert (Hs : group_succeeds (X := toy) "void" ["Base Climate Data/void_2020.nc"] [[]] []).
  { repeat split. constructor; [reflexivity|constructor]. }
  assert (Hv : Forall (fun d => data_vars (Xarray := toy) d = []) [[]]).
  { constructor; [reflexivity|constructor]. }
  split; [exact Hs|]. split; [exact Hv|].
  exact (proj1 (proj2 (fallback_path_has_leading_separator (X := toy) _ _ _ _ Hs Hv))).
Defined.

(** Two files that both contain "temp", the first one after "precip":
    the file is saved as combined_wx_precip_data.nc. *)
Lemma both_files_hold_temp_but_name_is_precip :
  ~ (forall k A B dA dB c,
       group_succeeds (X := toy_wx) k [A; B] [dA; dB] c ->
       In "temp" (data_vars (Xarray := toy_wx) dA) ->
       In "temp" (data_vars (Xarray := toy_wx) dB) ->
       output_path k (metadata_of (X := toy_wx) [A; B] [dA; dB])
         = "src/data/Processed Climate Data/combined_" +++ k +++ "_temp_data.nc") /\
  group_succeeds (X := toy_wx) "wx"
    ["Base Climate Data/wx_2020.nc"; "Base Climate Data/wx_2021.nc"]
    [["precip"; "temp"]; ["temp"]] ["precip"; "temp"] /\
  saved_files
    (fst (process_group (X := toy_wx)
            ("wx", ["Base Climate Data/wx_2020.nc"; "Base Climate Data/wx_2021.nc"])))
    = [("src/data/Processed Climate Data/combined_wx_precip_data.nc",
        ["precip"; "temp"])].
Proof.
  assert (Hs : group_succeeds (X := toy_wx) "wx"
            ["Base Climate Data/wx_2020.nc"; "Base Climate Data/wx_2021.nc"]
            [["precip"; "temp"]; ["temp"]] ["precip"; "temp"]).
  { repeat split. repeat constructor. }
  split; [|split; [exact Hs|reflexivity]].
  intros H.
  specialize (H "wx" _ _ _ _ _ Hs (or_intror (or_introl eq_refl)) (or_introl eq_refl)).
  vm_compute in H. discriminate H.
Qed.

Lemma output_path_from_prefix_and_first_variable_witness :
  group_succeeds (X := toy) "tempA"
    ["Base Climate Data/tempA_2020.nc"; "Base Climate Data/tempA_2021.nc"]
    [["temp"]; ["temp"]] ["temp"] /\
  output_path "tempA"
    (metadata_of (X := toy)
       ["Base Climate Data/tempA_2020.nc"; "Base Climate Data/tempA_2021.nc"]
       [["temp"]; ["temp"]])
    = "src/data/Processed Climate Data/combined_tempA_temp_data.nc".
Proof.
  assert (Hs : group_succeeds (X := toy) "tempA"
            ["Base Climate Data/tempA_2020.nc"; "Base Climate Data/tempA_2021.nc"]
            [["temp"]; ["temp"]] ["temp"]).
  { repeat split. repeat constructor. }
  split; [exact Hs|].
  exact (proj1 (output_path_from_prefix_and_first_variable (X := toy)
                  _ _ _ _ _ _ Hs eq_refl)).
Defined.

Lemma metadata_in_file_then_variable_order_witness :
  opens_to (X := toy)
    ["Base Climate Data/tempA_2020.nc"; "Base Climate Data/rainB_2020.nc"]
    [["temp"]; ["precip"]] /\
  snd (open_files (X := toy)
         ["Base Climate Data/tempA_2020.nc"; "Base Climate Data/rainB_2020.nc"] [] [])
    = Returned ([["temp"]; ["precip"]],
                [mkRecord "tempA_2020.nc" "temp" "units of temp";
                 mkRecord "rainB_2020.nc" "precip" "units of precip"]).
Proof.
  assert (Ho : opens_to (X := toy)
            ["Base Climate Data/tempA_2020.nc"; "Base Climate Data/rainB_2020.nc"]
            [["temp"]; ["precip"]]).
  { repeat constructor. }
  split; [exact Ho|].
  rewrite (proj1 (metadata_in_file_then_variable_order (X := toy) _ _ Ho)).
  reflexivity.
Defined.

Lemma unhandled_fault_aborts_run_witness :
  files_by_prefix (all_files ["tempA_2020.nc"; "ghost_1.nc"; "tempA_2021.nc"; "rainB_2020.nc"])
    = [("tempA", ["Base Climate Data/tempA_2020.nc"; "Base Climate Data/tempA_2021.nc"])]
      ++ ("ghost", ["Base Climate Data/ghost_1.nc"])
      :: [("rainB", ["Base Climate Data/rainB_2020.nc"])] /\
  raises_in (X := toy) "ghost" ["Base Climate Data/ghost_1.nc"] "FileNotFoundError"
    ["Base Climate Data/ghost_1.nc"] /\
  snd (run (X := toy) ["tempA_2020.nc"; "ghost_1.nc"; "tempA_2021.nc"; "rainB_2020.nc"])
    = Raised "FileNotFoundError" /\
  disk (fst (run (X := toy) ["tempA_2020.nc"; "ghost_1.nc"; "tempA_2021.nc"; "rainB_2020.nc"]))
       "src/data/Processed Climate Data/combined_tempA_temp_data.nc"
    = Some ["temp"].
Proof.
  assert (Hr : raises_in (X := toy) "ghost" ["Base Climate Data/ghost_1.nc"]
                 "FileNotFoundError" ([] ++ ["Base Climate Data/ghost_1.nc"])).
  { apply (open_raises (X := toy) "ghost" _ _ [] "Base Climate Data/ghost_1.nc" [] []);
      [reflexivity|constructor|reflexivity]. }
  assert (Hs : group_succeeds (X := toy) "tempA"
            ["Base Climate Data/tempA_2020.nc"; "Base Climate Data/tempA_2021.nc"]
            [["temp"]; ["temp"]] ["temp"]).
  { repeat split. repeat constructor. }
  assert (Hdone : Forall
            (fun g => exists dss c, group_succeeds (X := toy) (fst g) (snd g) dss c)
            [("tempA", ["Base Climate Data/tempA_2020.nc"; "Base Climate Data/tempA_2021.nc"])]).
  { constructor; [|constructor]. exists [["temp"]; ["temp"]], ["temp"]. exact Hs. }
  destruct (unhandled_fault_aborts_run (X := toy)
              ["tempA_2020.nc"; "ghost_1.nc"; "tempA_2021.nc"; "rainB_2020.nc"]
              [("tempA", ["Base Climate Data/tempA_2020.nc"; "Base Climate Data/tempA_2021.nc"])]
              "ghost" ["Base Climate Data/ghost_1.nc"]
              [("rainB", ["Base Climate Data/rainB_2020.nc"])]
              "FileNotFoundError" _ eq_refl Hdone Hr)
    as (Hrun & _ & Hdisk).
  split; [reflexivity|]. split; [exact Hr|]. split.
  - rewrite Hrun. reflexivity.
  - exact (proj2 (Hdisk _ _ _ _ (or_introl eq_refl) Hs)).
Defined.

Lemma grouping_is_partition_witness :
  NoDup ["tempA"; "rainB"] /\
  Permutation
    ["Base Climate Data/tempA_2020.nc"; "Base Climate Data/tempA_2021.nc";
     "Base Climate Data/rainB_2020.nc"]
    ["Base Climate Data/tempA_2020.nc"; "Base Climate Data/rainB_2020.nc";
     "Base Climate Data/tempA_2021.nc"].
Proof.
  pose proof (grouping_is_partition
                ["tempA_2020.nc"; "rainB_2020.nc"; "notes.txt"; "tempA_2021.nc"])
    as (Hkeys & Hperm & _).
  split; [exact Hkeys|exact Hperm].
Defined.

Lemma leading_underscore_files_share_empty_key_witness :
  In "_a.nc" (all_files ["_a.nc"; "x_1.nc"; "_b_c.nc"]) /\
  lookup EmptyString (files_by_prefix (all_files ["_a.nc"; "x_1.nc"; "_b_c.nc"]))
    = Some ["Base Climate Data/_a.nc"; "Base Climate Data/_b_c.nc"].
Proof.
  split; [left; reflexivity|].
  exact (proj1 (proj2 (leading_underscore_files_share_empty_key
                         ["_a.nc"; "x_1.nc"; "_b_c.nc"] "a.nc")
                      (or_introl eq_refl))).
Defined.

Lemma discovery_selects_by_extension_witness :
  (In "rainB_2020.nc" (all_files ["tempA_2020.nc"; "notes.txt"; "rainB_2020.nc"]) <->
   In "rainB_2020.nc" ["tempA_2020.nc"; "notes.txt"; "rainB_2020.nc"] /\
   exists name, "rainB_2020.nc" = name +++ ".nc") /\
  snd (run (X := toy) ["tempA_2020.nc"; "notes.txt"; "rainB_2020.nc"]) = Returned tt /\
  Permutation
    (opened_paths (fst (run (X := toy) ["tempA_2020.nc"; "notes.txt"; "rainB_2020.nc"])))
    ["Base Climate Data/tempA_2020.nc"; "Base Climate Data/rainB_2020.nc"].
Proof.
  pose proof (discovery_selects_by_extension (X := toy)
                ["tempA_2020.nc"; "notes.txt"; "rainB_2020.nc"])
    as (Hin & _ & Hopen & _).
  split; [exact (Hin "rainB_2020.nc")|]. split; [reflexivity|].
  exact (Hopen (fst (run (X := toy) ["tempA_2020.nc"; "notes.txt"; "rainB_2020.nc"]))
               eq_refl).
Defined.

Lemma groups_processed_in_first_occurrence_order_witness :
  map fst (files_by_prefix (all_files ["tempA_2020.nc"; "rainB_2020.nc"; "tempA_2021.nc"]))
    = ["tempA"; "rainB"] /\
  snd (run (X := toy) ["tempA_2020.nc"; "rainB_2020.nc"; "tempA_2021.nc"]) = Returned tt /\
  exists segments,
    fst (run (X := toy) ["tempA_2020.nc"; "rainB_2020.nc"; "tempA_2021.nc"])
      = List.concat segments /\
    List.length segments = 2.
Proof.
  pose proof (groups_processed_in_first_occurrence_order (X := toy)
                ["tempA_2020.nc"; "rainB_2020.nc"; "tempA_2021.nc"])
    as (Hkeys & Hlog).
  split; [exact Hkeys|]. split; [reflexivity|].
  destruct (Hlog (fst (run (X := toy) ["tempA_2020.nc"; "rainB_2020.nc"; "tempA_2021.nc"]))
                 (Returned tt) eq_refl)
    as (done & rest & segments & tail & EG & Et & Hseg & _ & Hend).
  destruct (Hend eq_refl) as [-> ->].
  exists segments. split.
  - rewrite app_nil_r in Et. exact Et.
  - rewrite <- (Forall2_length Hseg). rewrite app_nil_r in EG. rewrite <- EG.
    reflexivity.
Defined.

(** The scenario of three files: two groups, "tempA" with both years and
    "rainB" with one record. *)
Example two_groups_scenario :
  run (X := toy) ["tempA_2020.nc"; "tempA_2021.nc"; "rainB_2020.nc"]
  = ([Open "Base Climate Data/tempA_2020.nc";
      Open "Base Climate Data/tempA_2021.nc";
      Save "src/data/Processed Climate Data/combined_tempA_temp_data.nc" ["temp"];
      Print ("Combined dataset for prefix 'tempA' saved to: "
             +++ "src/data/Processed Climate Data/combined_tempA_temp_data.nc");
      Print "Extracted Metadata:";
      PrintEntry (mkRecord "tempA_2020.nc" "temp" "units of temp");
      PrintEntry (mkRecord "tempA_2021.nc" "temp" "units of temp");
      Open "Base Climate Data/rainB_2020.nc";
      Save "src/data/Processed Climate Data/combined_rainB_precip_data.nc" ["precip"];
      Print ("Combined dataset for prefix 'rainB' saved to: "
             +++ "src/data/Processed Climate Data/combined_rainB_precip_data.nc");
      Print "Extracted Metadata:";
      PrintEntry (mkRecord "rainB_2020.nc" "precip" "units of precip")],
     Returned tt).
Proof. reflexivity. Qed.

(** A concatenation that raises in the second group: the first group's
    file stays, the third group is never opened. *)
Example concat_fault_scenario :
  run (X := toy) ["rainB_2020.nc"; "mixed_1.nc"; "mixed_2.nc"; "tempA_2020.nc"]
  = ([Open "Base Climate Data/rainB_2020.nc";
      Save "src/data/Processed Climate Data/combined_rainB_precip_data.nc" ["precip"];
      Print ("Combined dataset for prefix 'rainB' saved to: "
             +++ "src/data/Processed Climate Data/combined_rainB_precip_data.nc");
      Print "Extracted Metadata:";
      PrintEntry (mkRecord "rainB_2020.nc" "precip" "units of precip");
      Open "Base Climate Data/mixed_1.nc";
      Open "Base Climate Data/mixed_2.nc"],
     Raised "ValueError").
Proof. reflexivity. Qed.

(** A write that raises: nothing is saved or printed for the group. *)
Example write_fault_scenario :
  run (X := toy) ["locked_1.nc"; "rainB_2020.nc"]
  = ([Open "Base Climate Data/locked_1.nc"], Raised "PermissionError").
Proof. reflexivity. Qed.

End Runs.

(** ** Further properties of the script *)

Section ScriptExtras.
Import PyStr PyStrFacts.

Context {Dataset Attrs Fault : Type} {X : Xarray Dataset Attrs Fault}.

Local Abbreviation log := (@log Dataset Attrs).

Lemma saved_files_app (t1 t2 : log) :
  saved_files (t1 ++ t2) = saved_files t1 ++ saved_files t2.
Proof. apply flat_map_app. Qed.

Lemma printed_entries_app (t1 t2 : log) :
  printed_entries (t1 ++ t2) = printed_entries t1 ++ printed_entries t2.
Proof. apply flat_map_app. Qed.

Lemma done_artifacts done :
  Forall (fun g => snd (process_group g) = Returned tt) done ->
  Forall2 artifact_of done
    (saved_files (List.concat (map (fun g => fst (process_group g)) done))).
Proof.
  induction 1 as [|g done Hg _ IH]; [constructor|].
  cbn [map List.concat]. rewrite saved_files_app.
  destruct (returned_group_log g Hg) as (dss & c & Hs & ->).
  rewrite saved_files_report. constructor; [|exact IH].
  exists dss. split; [exact Hs|reflexivity].
Qed.

Lemma Forall2_In_right {A B} (R : A -> B -> Prop) l l' b :
  Forall2 R l l' -> In b l' -> exists a, In a l /\ R a b.
Proof.
  induction 1 as [|x y l l' Hxy _ IH]; [intros []|].
  intros [<-|Hb].
  - exists x. split; [left; reflexivity|exact Hxy].
  - destruct (IH Hb) as (a & Ha & HR). exists a. split; [right; exact Ha|exact HR].
Qed.

Lemma artifacts_NoDup done arts :
  NoDup (map fst done) ->
  (forall g, In g done -> contains "_" (fst g) = false) ->
  Forall2 artifact_of done arts ->
  NoDup (map fst arts).
Proof.
  intros Hnd Hsep H. induction H as [|g a done arts Hga Hrest IH]; [constructor|].
  simpl in Hnd. inversion Hnd as [|? ? Hg Hnd']; subst. simpl. constructor.
  - intros Hin. apply in_map_iff in Hin as (a' & Ea & Ha').
    destruct (Forall2_In_right _ _ _ _ Hrest Ha') as (g' & Hg' & (dss' & _ & Ep')).
    destruct Hga as (dss & _ & Ep).
    rewrite Ep, Ep' in Ea. apply output_path_inj in Ea.
    + apply Hg. rewrite <- Ea. apply in_map. exact Hg'.
    + apply Hsep. right. exact Hg'.
    + apply Hsep. left. reflexivity.
  - apply IH; [exact Hnd'|]. intros g' Hg'. apply Hsep. right. exact Hg'.
Qed.

(** What any run has saved: one file per completed group, in dictionary
    order. *)
Lemma run_saved listing t r :
  run listing = (t, r) ->
  exists done rest,
    files_by_prefix (all_files listing) = done ++ rest /\
    Forall2 artifact_of done (saved_files t) /\
    (r = Returned tt -> rest = []).
Proof.
  intros H.
  destruct (run_log_shape _ _ _ H) as (done & rest & tail & EG & Hdone & -> & Hr).
  exists done, rest. split; [exact EG|].
  assert (Htail : saved_files tail = []).
  { destruct Hr as [(_ & _ & ->)|(k & fps & rest' & e & tried & _ & _ & _ & ->)];
      [reflexivity|apply saved_files_opens]. }
  rewrite saved_files_app, Htail, app_nil_r.
  split; [exact (done_artifacts _ Hdone)|].
  destruct Hr as [(_ & -> & _)|(k & fps & rest' & e & tried & _ & -> & _)];
    [reflexivity|discriminate].
Qed.

Lemma dictionary_keys_distinct listing :
  NoDup (map fst (files_by_prefix (all_files listing))).
Proof. rewrite files_by_prefix_keys. apply first_occurrences_NoDup. Qed.

(** X1. A listing without any name ending in ".nc" (the empty directory
    included) makes the run return at once: nothing is opened, nothing is
    concatenated, saved or printed. *)
Theorem no_matching_name_no_effect listing :
  Forall (fun f => endswith f ".nc" = false) listing ->
  all_files listing = [] /\ run listing = ([], Returned tt).
Proof.
  intros H.
  assert (E : all_files listing = []).
  { unfold all_files. induction H as [|f l Hf _ IH]; [reflexivity|].
    simpl. rewrite Hf. exact IH. }
  split; [exact E|]. unfold run. rewrite E. reflexivity.
Qed.

(** X2. After a run that returns, every group has succeeded and its
    combined dataset is on disk at its output path; the saved files are
    as many as the groups and their paths are pairwise distinct. *)
Theorem returning_run_saves_every_group listing t :
  run listing = (t, Returned tt) ->
  List.length (saved_files t)
    = List.length (files_by_prefix (all_files listing)) /\
  NoDup (map fst (saved_files t)) /\
  (forall k fps,
     In (k, fps) (files_by_prefix (all_files listing)) ->
     exists dss c,
       group_succeeds k fps dss c /\
       disk t (output_path k (metadata_of fps dss)) = Some c).
Proof.
  intros H.
  pose proof (dictionary_keys_distinct listing) as Hkeys.
  assert (Hsep : forall g, In g (files_by_prefix (all_files listing)) ->
                           contains "_" (fst g) = false)
    by (intros [kg fg] Hg; exact (files_by_prefix_key_no_sep _ _ _ Hg)).
  destruct (run_saved _ _ _ H) as (done & rest & EG & Harts & Hrest).
  rewrite (Hrest eq_refl), app_nil_r in EG. subst done.
  split; [symmetry; exact (Forall2_length Harts)|].
  split; [exact (artifacts_NoDup _ _ Hkeys Hsep Harts)|].
  intros k fps Hin.
  destruct (run_log_shape _ _ _ H) as (done & rest' & tail & EG & Hdone & Et & Hr).
  destruct Hr as [(_ & -> & ->)|(? & ? & ? & ? & ? & _ & Hbad & _)];
    [|discriminate Hbad].
  rewrite !app_nil_r in *. subst done t.
  apply in_split in Hin as (earlier & later & EG).
  rewrite EG in Hdone, Hkeys, Hsep |- *.
  pose proof Hdone as Hall.
  apply Forall_app in Hdone as [_ Hdone].
  inversion Hdone as [|? ? Hg Hlater]; subst.
  destruct (returned_group_log _ Hg) as (dss & c & Hs & Elog).
  exists dss, c. split; [exact Hs|].
  rewrite map_app, concat_app. cbn [map List.concat].
  rewrite Elog. cbn [fst snd].
  rewrite !map_app in Hkeys. simpl in Hkeys. apply NoDup_remove_2 in Hkeys.
  rewrite disk_app, disk_app, disk_other_groups.
  - rewrite disk_report, String.eqb_refl. reflexivity.
  - apply (Hsep (k, fps)). apply in_or_app. right. left. reflexivity.
  - exact Hlater.
  - intros g Hg'. split.
    + apply Hsep. apply in_or_app. right. right. exact Hg'.
    + intros Heq. apply Hkeys. apply in_or_app. right.
      rewrite <- Heq. apply in_map. exact Hg'.
Qed.

(** X3. Two groups of one run never derive the same output path,
    whatever their variables: a key has no underscore, so the path
    determines it. *)
Theorem distinct_groups_distinct_output_paths listing k fps k' fps'
    (names names' : list (MetadataRecord Attrs)) :
  In (k, fps) (files_by_prefix (all_files listing)) ->
  In (k', fps') (files_by_prefix (all_files listing)) ->
  output_path k names = output_path k' names' ->
  k = k' /\ fps = fps'.
Proof.
  intros H H' E.
  assert (Ek : k = k').
  { eapply output_path_inj; [| |exact E];
      eapply files_by_prefix_key_no_sep; eassumption. }
  subst k'. split; [reflexivity|].
  apply files_by_prefix_In in H as [_ ->].
  apply files_by_prefix_In in H' as [_ ->]. reflexivity.
Qed.

(** X4. When no listed name starts with a separator (as for the names
    os.listdir returns), everything a run opens lies under "Base Climate
    Data/" and nothing it saves does: the run never overwrites a file it
    reads. *)
Theorem inputs_never_overwritten listing t r :
  Forall (fun f => startswith f "/" = false) listing ->
  run listing = (t, r) ->
  forall fp p d,
    In fp (opened_paths t) -> In (p, d) (saved_files t) ->
    startswith fp "Base Climate Data/" = true /\
    startswith p "Base Climate Data/" = false /\
    fp <> p.
Proof.
  intros Hno H fp p d Hfp Hp.
  assert (Efp : exists f, fp = "Base Climate Data/" +++ f).
  { destruct (run_opened_prefix _ _ _ H) as (unopened & E & _).
    assert (Hin : In fp (map (OsPath.join search_directory) (all_files listing))).
    { eapply Permutation_in; [apply files_by_prefix_permutation|].
      rewrite E. apply in_or_app. left. exact Hfp. }
    apply in_map_iff in Hin as (f & <- & Hf). exists f.
    apply all_files_In in Hf as [Hf _].
    rewrite Forall_forall in Hno. rewrite join_search_directory, (Hno f Hf).
    reflexivity. }
  assert (Ep : exists k (names : list (MetadataRecord Attrs)), p = output_path k names).
  { destruct (run_saved _ _ _ H) as (done & rest & _ & Harts & _).
    destruct (Forall2_In_right _ _ _ _ Harts Hp) as (g & _ & (dss & _ & E)).
    exists (fst g), (metadata_of (snd g) dss). exact E. }
  destruct Efp as (f & ->). destruct Ep as (k & names & ->).
  split; [apply startswith_spec; exists f; reflexivity|].
  split; [destruct names; reflexivity|].
  destruct names; discriminate.
Qed.

Lemma metadata_of_app fps1 fps2 (dss1 dss2 : list Dataset) :
  List.length fps1 = List.length dss1 ->
  metadata_of (fps1 ++ fps2) (dss1 ++ dss2)
  = metadata_of fps1 dss1 ++ metadata_of fps2 dss2.
Proof.
  revert dss1. induction fps1 as [|fp fps1 IH]; intros [|d dss1] H;
    try discriminate; [reflexivity|].
  simpl app. rewrite !metadata_of_cons, IH by (simpl in H; lia).
  apply app_assoc.
Qed.

(** X5. The fallback name is used exactly when no file of the group has
    a variable. Otherwise the variable in the name is the first variable
    of the first file that has one, which need not be the first file. *)
Theorem output_name_from_first_file_with_variables k fps dss :
  opens_to fps dss ->
  (output_path k (metadata_of fps dss)
     = "/src/data/Processed Climate Data/combined_" +++ k +++ "_climate_data.nc"
   <-> Forall (fun d => data_vars d = []) dss) /\
  (forall before d after v vs,
     dss = before ++ d :: after ->
     Forall (fun d' => data_vars d' = []) before ->
     data_vars d = v :: vs ->
     output_path k (metadata_of fps dss)
       = "src/data/Processed Climate Data/combined_" +++ k +++ "_" +++ v
         +++ "_data.nc").
Proof.
  intros Ho. split.
  - split.
    + intros E. destruct (metadata_of fps dss) as [|r names] eqn:Em;
        [|discriminate E]. clear E.
      induction Ho as [|fp d fps dss _ _ IH]; [constructor|].
      rewrite metadata_of_cons in Em. apply app_eq_nil in Em as [E1 E2].
      constructor; [|exact (IH E2)].
      destruct (data_vars d); [reflexivity|discriminate E1].
    + intros H. rewrite (metadata_of_no_vars fps dss H). reflexivity.
  - intros before d after v vs -> Hbefore Hd.
    apply Forall2_app_inv_r in Ho as (fps1 & fps2 & Ho1 & Ho2 & ->).
    inversion Ho2 as [|fp ? fps3 ? _ _]; subst.
    rewrite metadata_of_app by exact (Forall2_length Ho1).
    rewrite (metadata_of_no_vars _ _ Hbefore), metadata_of_cons, Hd.
    reflexivity.
Qed.

(** X6. The set of prefixes computed on line 16 (and never read again)
    is exactly the set of keys of the dictionary of groups. *)
Theorem prefix_set_is_key_set listing k :
  prefixes (all_files listing) k = true <->
  exists fps, In (k, fps) (files_by_prefix (all_files listing)).
Proof.
  rewrite prefixes_are_keys, in_map_iff. split.
  - intros ([k' fps] & E & H). simpl in E. subst k'. exists fps. exact H.
  - intros (fps & H). exists (k, fps). split; [reflexivity|exact H].
Qed.

Lemma printed_entries_done done e :
  Forall (fun g => snd (process_group g) = Returned tt) done ->
  In e (printed_entries (List.concat (map (fun g => fst (process_group g)) done))) ->
  exists g dss,
    In g done /\ opens_to (snd g) dss /\ In e (metadata_of (snd g) dss).
Proof.
  induction 1 as [|g done Hg _ IH]; [intros []|].
  cbn [map List.concat]. rewrite printed_entries_app. intros Hin.
  apply in_app_or in Hin as [Hin|Hin].
  - destruct (returned_group_log g Hg) as (dss & c & (Ho & _) & E).
    rewrite E, printed_entries_report in Hin.
    exists g, dss. split; [left; reflexivity|]. split; [exact Ho|exact Hin].
  - destruct (IH Hin) as (g' & dss & Hg' & Ho & He).
    exists g', dss. split; [right; exact Hg'|]. split; [exact Ho|exact He].
Qed.

Lemma metadata_of_file_name fps (dss : list Dataset) e :
  In e (metadata_of fps dss) ->
  exists fp, In fp fps /\ file_name e = OsPath.basename fp.
Proof.
  unfold metadata_of. rewrite in_flat_map. intros ([fp d] & Hfd & He).
  apply in_map_iff in He as (v & <- & _).
  exists fp. split; [exact (in_combine_l _ _ _ _ Hfd)|reflexivity].
Qed.

(** X7. When no listed name holds a separator, the file name of every
    metadata record a run prints is one of the discovered names, as
    listed: the base name of the joined path is the name again. *)
Theorem metadata_file_names_are_listed_names listing t r :
  Forall (fun f => contains "/" f = false) listing ->
  run listing = (t, r) ->
  forall e, In e (printed_entries t) -> In (file_name e) (all_files listing).
Proof.
  intros Hno H e He.
  destruct (run_log_shape _ _ _ H) as (done & rest & tail & EG & Hdone & -> & Hr).
  rewrite printed_entries_app in He.
  assert (Htail : printed_entries tail = []).
  { destruct Hr as [(_ & _ & ->)|(k & fps & rest' & e' & tried & _ & _ & _ & ->)];
      [reflexivity|apply printed_entries_opens]. }
  rewrite Htail, app_nil_r in He.
  destruct (printed_entries_done _ _ Hdone He) as ([k fps] & dss & Hg & _ & Hin).
  destruct (metadata_of_file_name _ _ _ Hin) as (fp & Hfp & ->).
  assert (HG : In (k, fps) (files_by_prefix (all_files listing)))
    by (rewrite EG; apply in_or_app; left; exact Hg).
  apply files_by_prefix_In in HG as [_ E]. simpl in Hfp. rewrite E in Hfp.
  apply files_with_prefix_from in Hfp as (f & Hf & _ & ->).
  rewrite basename_join; [exact Hf|].
  rewrite Forall_forall in Hno. apply Hno.
  apply all_files_In in Hf as [Hf _]. exact Hf.
Qed.

Lemma NoDup_map_join l :
  NoDup l -> NoDup (map (OsPath.join search_directory) l).
Proof.
  induction 1 as [|a l Ha _ IH]; simpl; constructor; [|exact IH].
  intros Hin. apply in_map_iff in Hin as (b & E & Hb).
  apply join_search_directory_inj in E. subst b. contradiction.
Qed.

(** X8. When the listing has no duplicates, a run opens no file twice,
    whether it returns or raises. *)
Theorem no_file_opened_twice listing t r :
  NoDup listing -> run listing = (t, r) -> NoDup (opened_paths t).
Proof.
  intros Hnd H.
  destruct (run_opened_prefix _ _ _ H) as (unopened & E & _).
  assert (Hall : NoDup (opened_paths t ++ unopened)).
  { rewrite <- E.
    eapply Permutation_NoDup;
      [apply Permutation_sym, files_by_prefix_permutation|].
    apply NoDup_map_join. unfold all_files. apply NoDup_filter. exact Hnd. }
  exact (NoDup_app_remove_r _ _ Hall).
Qed.

End ScriptExtras.


(** ** Facts about the map page *)

Module Page1Facts.
Import Page1.

Lemma dict_get_app {V} k (d1 d2 : list (string * V)) :
  dict_get k (d1 ++ d2) =
  match dict_get k d1 with
  | Some v => Some v
  | None => dict_get k d2
  end.
Proof.
  induction d1 as [|[k' v'] d1 IH]; simpl; [reflexivity|].
  destruct (String.eqb k' k); [reflexivity|exact IH].
Qed.

Lemma dict_set_fresh {V} k (v : V) d :
  dict_get k d = None -> dict_set k v d = d ++ [(k, v)].
Proof.
  induction d as [|[k' v'] d IH]; simpl; [reflexivity|].
  destruct (String.eqb k' k); [discriminate|].
  intros H. rewrite (IH H). reflexivity.
Qed.

Lemma dict_get_set_same {V} k (v : V) d : dict_get k (dict_set k v d) = Some v.
Proof.
  induction d as [|[k' v'] d IH]; simpl.
  - rewrite String.eqb_refl. reflexivity.
  - destruct (String.eqb k' k) eqn:E; simpl; rewrite E; [reflexivity|exact IH].
Qed.

Lemma dict_get_set_other {V} k k' (v : V) d :
  k <> k' -> dict_get k' (dict_set k v d) = dict_get k' d.
Proof.
  intros Hne. induction d as [|[k0 v0] d IH]; simpl.
  - apply String.eqb_neq in Hne. rewrite Hne. reflexivity.
  - destruct (String.eqb k0 k) eqn:E; simpl.
    + apply String.eqb_eq in E. subst k0.
      apply String.eqb_neq in Hne. rewrite Hne. reflexivity.
    + rewrite IH. reflexivity.
Qed.

Section LoadingFacts.

Context {Data Fault : Type} {F : Files Data Fault}.

Local Abbreviation entry_of data_dir :=
  (fun file_name =>
     match loaded data_dir file_name with
     | Some d => [(replace file_name ".geojson" "", d)]
     | None => []
     end).

Lemma dict_get_entries_none data_dir names k :
  ~ In k (map (fun n => replace n ".geojson" "") names) ->
  dict_get k (flat_map (entry_of data_dir) names) = None.
Proof.
  induction names as [|a names IH]; simpl; [reflexivity|].
  intros H. rewrite dict_get_app, IH by tauto.
  destruct (loaded data_dir a); [|reflexivity].
  simpl. destruct (String.eqb _ k) eqn:E; [|reflexivity].
  apply String.eqb_eq in E. tauto.
Qed.

(** The loop in closed form when nothing but decode errors is raised:
    one printed line per name that is missing or does not parse, one
    dictionary entry per name that loads, both in order. *)
Lemma load_files_closed_form data_dir names d0 :
  (forall n e, In n names -> ~ faults data_dir n e) ->
  NoDup (map (fun n => replace n ".geojson" "") names) ->
  (forall n, In n names -> dict_get (replace n ".geojson" "") d0 = None) ->
  load_files data_dir names d0 =
  (flat_map (message data_dir) names,
   Returned (d0 ++ flat_map (entry_of data_dir) names)).
Proof.
  revert d0. induction names as [|a names IH]; intros d0 Hok Hnd Hfresh.
  - simpl. rewrite app_nil_r. reflexivity.
  - simpl in Hnd. inversion Hnd as [|? ? Ha Hnd']; subst.
    assert (Hok' : forall n e, In n names -> ~ faults data_dir n e)
      by (intros n e Hn; apply Hok; right; exact Hn).
    cbn [load_files flat_map]. unfold message at 1, loaded at 1.
    destruct (path_exists (OsPath.join data_dir a)) eqn:Ex.
    + destruct (json_load (OsPath.join data_dir a)) as [d|msg|e] eqn:Ej.
      * rewrite IH; [|exact Hok'|exact Hnd'|].
        -- rewrite dict_set_fresh by (apply Hfresh; left; reflexivity).
           rewrite <- app_assoc. reflexivity.
        -- intros n Hn. rewrite dict_get_set_other.
           ++ apply Hfresh. right. exact Hn.
           ++ intros E. apply Ha. rewrite E.
              apply (in_map (fun n => replace n ".geojson" "")). exact Hn.
      * rewrite IH; [reflexivity|exact Hok'|exact Hnd'|].
        intros n Hn. apply Hfresh. right. exact Hn.
      * exfalso. apply (Hok a e (or_introl eq_refl)). split; assumption.
    + rewrite IH; [reflexivity|exact Hok'|exact Hnd'|].
      intros n Hn. apply Hfresh. right. exact Hn.
Qed.

Lemma load_files_fault data_dir before n after e d0 :
  (forall n' e', In n' before -> ~ faults data_dir n' e') ->
  faults data_dir n e ->
  load_files data_dir (before ++ n :: after) d0
  = (flat_map (message data_dir) before, Raised e).
Proof.
  intros Hok [Hex Hf]. revert d0.
  induction before as [|a before IH]; intros d0.
  - simpl. rewrite Hex, Hf. reflexivity.
  - assert (Hok' : forall n' e', In n' before -> ~ faults data_dir n' e')
      by (intros n' e' Hn; apply Hok; right; exact Hn).
    cbn [app load_files flat_map]. unfold message at 1.
    destruct (path_exists (OsPath.join data_dir a)) eqn:Ex.
    + destruct (json_load (OsPath.join data_dir a)) as [d|msg|e'] eqn:Ej.
      * rewrite (IH Hok'). reflexivity.
      * rewrite (IH Hok'). reflexivity.
      * exfalso. apply (Hok a e' (or_introl eq_refl)). split; assumption.
    + rewrite (IH Hok'). reflexivity.
Qed.

Lemma entries_and_messages data_dir names :
  (forall n e, In n names -> ~ faults data_dir n e) ->
  List.length (flat_map (entry_of data_dir) names)
  + List.length (flat_map (message data_dir) names)
  = List.length names.
Proof.
  induction names as [|a names IH]; intros Hok; [reflexivity|].
  cbn [flat_map]. rewrite !length_app.
  assert (E : List.length (entry_of data_dir a) + List.length (message data_dir a) = 1).
  { unfold loaded, message.
    destruct (path_exists (OsPath.join data_dir a)) eqn:Ex; [|reflexivity].
    destruct (json_load (OsPath.join data_dir a)) as [d|msg|e] eqn:Ej;
      try reflexivity.
    exfalso. apply (Hok a e (or_introl eq_refl)). split; assumption. }
  assert (IH' := IH (fun n e Hn => Hok n e (or_intror Hn))).
  cbn [List.length]. lia.
Qed.

Lemma dataset_names_distinct :
  NoDup (map (fun n => replace n ".geojson" "") file_names).
Proof.
  vm_compute. repeat constructor; simpl; intuition discriminate.
Qed.

Lemma dict_get_entries data_dir names n :
  NoDup (map (fun n => replace n ".geojson" "") names) ->
  In n names ->
  dict_get (replace n ".geojson" "") (flat_map (entry_of data_dir) names)
  = loaded data_dir n.
Proof.
  induction names as [|a names IH]; intros Hnd Hin; [contradiction|].
  simpl in Hnd. inversion Hnd as [|? ? Ha Hnd']; subst.
  cbn [flat_map]. rewrite dict_get_app. destruct Hin as [->|Hin].
  - destruct (loaded data_dir n) as [d|].
    + simpl. rewrite String.eqb_refl. reflexivity.
    + simpl. apply dict_get_entries_none. exact Ha.
  - assert (Hne : replace a ".geojson" "" <> replace n ".geojson" "").
    { intros E. apply Ha. rewrite E.
      apply (in_map (fun n => replace n ".geojson" "")). exact Hin. }
    replace (dict_get (replace n ".geojson" "") (entry_of data_dir a))
      with (@None Data).
    + apply IH; assumption.
    + destruct (loaded data_dir a); [|reflexivity].
      simpl. apply String.eqb_neq in Hne. rewrite Hne. reflexivity.
Qed.

End LoadingFacts.

Lemma insert_by_In {A} (le : A -> A -> bool) x y l :
  In x (insert_by le y l) <-> x = y \/ In x l.
Proof.
  induction l as [|a l IH]; simpl; [intuition congruence|].
  destruct (le y a); simpl; [intuition congruence|].
  rewrite IH. intuition congruence.
Qed.

Lemma sort_by_In {A} (le : A -> A -> bool) x l : In x (sort_by le l) <-> In x l.
Proof.
  induction l as [|a l IH]; simpl; [tauto|].
  rewrite insert_by_In, IH. intuition congruence.
Qed.

Lemma insert_by_strict y l :
  StronglySorted Z.lt l -> ~ In y l -> StronglySorted Z.lt (insert_by Z.leb y l).
Proof.
  induction 1 as [|a l Hl IH Ha]; intros Hy; simpl.
  - constructor; constructor.
  - destruct (Z.leb y a) eqn:E.
    + apply Z.leb_le in E.
      assert (Hlt : (y < a)%Z).
      { destruct (Z.eq_dec y a) as [->|Hne]; [exfalso; apply Hy; left; reflexivity|lia]. }
      constructor; [constructor; assumption|].
      constructor; [exact Hlt|].
      eapply Forall_impl; [|exact Ha]. intros z Hz. simpl in Hz. lia.
    + apply Z.leb_gt in E. constructor.
      * apply IH. intros H. apply Hy. right. exact H.
      * apply Forall_forall. intros z Hz. apply insert_by_In in Hz as [->|Hz].
        -- exact E.
        -- rewrite Forall_forall in Ha. exact (Ha z Hz).
Qed.

Lemma sort_by_strict l : NoDup l -> StronglySorted Z.lt (sort_by Z.leb l).
Proof.
  induction 1 as [|a l Ha _ IH]; simpl; [constructor|].
  apply insert_by_strict; [exact IH|]. rewrite sort_by_In. exact Ha.
Qed.

Lemma last_is_greatest l :
  StronglySorted Z.lt l -> l <> [] ->
  In (last l 0%Z) l /\ forall x, In x l -> (x <= last l 0%Z)%Z.
Proof.
  induction 1 as [|a l Hl IH Ha]; intros Hne; [contradiction|].
  destruct l as [|b l].
  - simpl. split; [left; reflexivity|]. intros x [->|[]]. lia.
  - destruct IH as [Hin Hmax]; [discriminate|].
    change (last (a :: b :: l) 0%Z) with (last (b :: l) 0%Z).
    split; [right; exact Hin|].
    intros x [->|Hx]; [|exact (Hmax x Hx)].
    rewrite Forall_forall in Ha. specialize (Ha _ Hin). lia.
Qed.

Lemma to_int_not_nil z :
  Z.to_int z <> Decimal.Pos Decimal.Nil /\ Z.to_int z <> Decimal.Neg Decimal.Nil.
Proof.
  destruct z as [|p|p]; simpl; split; try discriminate;
    intros H; injection H as H; exact (DecimalPos.Unsigned.to_uint_nonnil _ H).
Qed.

Lemma str_int_parses z :
  NilZero.int_of_string (str_int z) = Some (Z.to_int z).
Proof.
  unfold str_int.
  exact (NilZero.isi _ (proj1 (to_int_not_nil z)) (proj2 (to_int_not_nil z))).
Qed.

Lemma str_int_inj y y' : str_int y = str_int y' -> y = y'.
Proof.
  intros E. apply (f_equal NilZero.int_of_string) in E.
  rewrite !str_int_parses in E. injection E as E.
  exact (DecimalZ.to_int_inj _ _ E).
Qed.

Lemma str_int_not_a_bool z : str_int z <> "True" /\ str_int z <> "False".
Proof.
  split; intros E; apply (f_equal NilZero.int_of_string) in E;
    rewrite str_int_parses in E; vm_compute in E; discriminate E.
Qed.

Section ValueFacts.

Context {Float : Type} {PF : PyFloat Float}.

Lemma ints_hold_no_float (zs : list Z) :
  existsb is_float (map (@SInt Float) zs) = false.
Proof. induction zs; simpl; auto. Qed.

Lemma ints_are_numbers (zs : list Z) :
  forallb is_number (map (@SInt Float) zs) = true.
Proof. induction zs; simpl; auto. Qed.

Lemma insert_by_ints y zs :
  insert_by number_le (@SInt Float y) (map SInt zs)
  = map SInt (insert_by Z.leb y zs).
Proof.
  induction zs as [|a zs IH]; simpl; [reflexivity|].
  unfold number_le at 1. simpl.
  destruct (Z.leb y a); simpl; [reflexivity|]. rewrite IH. reflexivity.
Qed.

Lemma sort_by_ints zs :
  sort_by number_le (map (@SInt Float) zs) = map SInt (sort_by Z.leb zs).
Proof.
  induction zs as [|a zs IH]; [reflexivity|].
  change (sort_by number_le (map (@SInt Float) (a :: zs)))
    with (insert_by number_le (@SInt Float a) (sort_by number_le (map SInt zs))).
  rewrite IH. apply insert_by_ints.
Qed.

Lemma py_sorted_ints zs :
  py_sorted (map (@SInt Float) zs) = Returned (map SInt (sort_by Z.leb zs)).
Proof.
  destruct zs as [|a [|b zs]]; try reflexivity.
  unfold py_sorted.
  change (SInt a :: SInt b :: map SInt zs) with (map (@SInt Float) (a :: b :: zs)).
  rewrite ints_hold_no_float, ints_are_numbers, sort_by_ints. reflexivity.
Qed.

Lemma set_add_absent (y : Z) zs :
  set_add Z.eq_dec y zs = if in_dec Z.eq_dec y zs then zs else zs ++ [y].
Proof.
  induction zs as [|a zs IH]; simpl; [reflexivity|].
  destruct (Z.eq_dec y a) as [->|Hne].
  - destruct (Z.eq_dec a a); [reflexivity|contradiction].
  - destruct (Z.eq_dec a y); [congruence|].
    rewrite IH. destruct (in_dec Z.eq_dec y zs); reflexivity.
Qed.

Lemma existsb_same_int (y : Z) zs :
  existsb (fun x => set_same x (@SInt Float y)) (map SInt zs)
  = if in_dec Z.eq_dec y zs then true else false.
Proof.
  induction zs as [|a zs IH]; simpl; [reflexivity|].
  rewrite IH. unfold set_same, scalar_test. simpl.
  destruct (Z.eq_dec a y) as [->|Hne].
  - rewrite Z.eqb_refl. reflexivity.
  - replace (Z.eqb a y) with false by (symmetry; apply Z.eqb_neq; exact Hne).
    destruct (in_dec Z.eq_dec y zs); reflexivity.
Qed.

Lemma set_add_py_ints y zs :
  set_add_py (@SInt Float y) (map SInt zs) = map SInt (set_add Z.eq_dec y zs).
Proof.
  unfold set_add_py. rewrite existsb_same_int, set_add_absent.
  destruct (in_dec Z.eq_dec y zs); [reflexivity|].
  rewrite map_app. reflexivity.
Qed.

Lemma last_ints a zs :
  last (map (@SInt Float) (a :: zs)) SNull = SInt (last (a :: zs) 0%Z).
Proof.
  revert a. induction zs as [|b zs IH]; intros a; [reflexivity|].
  change (last (map (@SInt Float) (a :: b :: zs)) SNull)
    with (last (map (@SInt Float) (b :: zs)) SNull).
  rewrite IH. reflexivity.
Qed.

Lemma py_str_inj_numbers (a b : scalar Float) :
  is_number a = true -> is_number b = true -> py_str a = py_str b -> a = b.
Proof.
  destruct a as [|[|]|y| |], b as [|[|]|y'| |]; simpl;
    try discriminate; intros _ _ E;
    try reflexivity; try discriminate E.
  - exfalso. symmetry in E. exact (proj1 (str_int_not_a_bool y') E).
  - exfalso. symmetry in E. exact (proj2 (str_int_not_a_bool y') E).
  - exfalso. exact (proj1 (str_int_not_a_bool y) E).
  - exfalso. exact (proj2 (str_int_not_a_bool y) E).
  - f_equal. exact (str_int_inj _ _ E).
Qed.

Lemma py_str_inj_strs (a b : scalar Float) :
  is_str a = true -> is_str b = true -> py_str a = py_str b -> a = b.
Proof.
  destruct a, b; simpl; try discriminate. intros _ _ ->. reflexivity.
Qed.

End ValueFacts.

Section CallbackFacts.

Context {Float Figure PlotFault : Type}
        {PF : PyFloat Float} {PL : Plotly Figure PlotFault}.

Lemma int_entry_year (entry : json Float) :
  int_entry entry ->
  (contains_key entry "year" = Returned false /\
   forall v, subscript entry "year" <> Returned v) \/
  (exists y, contains_key entry "year" = Returned true /\
             subscript entry "year" = Returned (JScalar (SInt y))).
Proof.
  intros (items & -> & [Hnone|(y & Hy)]); simpl.
  - left. rewrite Hnone. split; [reflexivity|discriminate].
  - right. exists y. rewrite Hy. split; reflexivity.
Qed.

(** The inner loop on entries with integer years, from a set of
    integers. *)
Lemma add_years_ints (entries : list (json Float)) zs :
  Forall int_entry entries ->
  exists zs',
    add_years entries (map SInt zs) = Returned (map SInt zs') /\
    (NoDup zs -> NoDup zs') /\
    (forall y,
       In y zs' <->
       In y zs \/
       exists entry, In entry entries /\
                     subscript entry "year" = Returned (JScalar (SInt y))).
Proof.
  intros H. revert zs. induction H as [|e es He _ IH]; intros zs.
  - exists zs. split; [reflexivity|]. split; [tauto|].
    intros y. split; [tauto|]. intros [Hy|(e & [] & _)]. exact Hy.
  - cbn [add_years].
    destruct (int_entry_year e He) as [[Hc Hs]|(y0 & Hc & Hs)]; rewrite Hc; simpl.
    + destruct (IH zs) as (zs' & E & Hnd & Hin).
      exists zs'. split; [exact E|]. split; [exact Hnd|].
      intros y. rewrite Hin. split.
      * intros [Hy|(e' & He' & Hy)]; [left; exact Hy|].
        right. exists e'. split; [right; exact He'|exact Hy].
      * intros [Hy|(e' & [<-|He'] & Hy)]; [left; exact Hy| |].
        -- exfalso. exact (Hs _ Hy).
        -- right. exists e'. split; assumption.
    + rewrite Hs. simpl. rewrite set_add_py_ints.
      destruct (IH (set_add Z.eq_dec y0 zs)) as (zs' & E & Hnd & Hin).
      exists zs'. split; [exact E|]. split.
      * intros Hzs. apply Hnd. apply set_add_nodup. exact Hzs.
      * intros y. rewrite Hin, set_add_iff. split.
        -- intros [[->|Hy]|(e' & He' & Hy)].
           ++ right. exists e. split; [left; reflexivity|exact Hs].
           ++ left. exact Hy.
           ++ right. exists e'. split; [right; exact He'|exact Hy].
        -- intros [Hy|(e' & [<-|He'] & Hy)].
           ++ left. right. exact Hy.
           ++ left. left. rewrite Hs in Hy. injection Hy as ->. reflexivity.
           ++ right. exists e'. split; assumption.
Qed.

Lemma collect_years_ints (features : list (json Float)) zs :
  int_years features ->
  exists zs',
    collect_years features (map SInt zs) = Returned (map SInt zs') /\
    (NoDup zs -> NoDup zs') /\
    (forall y,
       In y zs' <->
       In y zs \/ exists feature, In feature features /\ has_year y feature).
Proof.
  revert zs. induction features as [|f fs IH]; intros zs Hall.
  - exists zs. split; [reflexivity|]. split; [tauto|].
    intros y. split; [tauto|]. intros [Hy|(f & [] & _)]. exact Hy.
  - destruct (Hall f (or_introl eq_refl)) as (es & Ees & Hes).
    destruct (add_years_ints es zs Hes) as (zs1 & E1 & Hnd1 & Hin1).
    destruct (IH zs1 (fun f' Hf' => Hall f' (or_intror Hf')))
      as (zs2 & E2 & Hnd2 & Hin2).
    exists zs2. cbn [collect_years]. rewrite Ees. simpl. rewrite E1. simpl.
    split; [exact E2|]. split; [tauto|].
    intros y. rewrite Hin2, Hin1. split.
    + intros [[Hy|(e & He & Hy)]|(f' & Hf' & Hy)].
      * left. exact Hy.
      * right. exists f. split; [left; reflexivity|].
        exists es, e. repeat split; assumption.
      * right. exists f'. split; [right; exact Hf'|exact Hy].
    + intros [Hy|(f' & [<-|Hf'] & Hy)].
      * left. left. exact Hy.
      * left. right. destruct Hy as (es' & e & Ees' & He & Hy).
        rewrite Ees in Ees'. injection Ees' as <-. exists e. split; assumption.
      * right. exists f'. split; assumption.
Qed.

(** The year selector on a loaded document with integer years, in closed
    form. *)
Lemma selector_on_int_years datasets name geojson_data features :
  dict_get name datasets = Some geojson_data ->
  features_of geojson_data = Returned features ->
  int_years features ->
  exists years,
    update_year_selector datasets (Some name)
    = Returned
        ([AvailableYears name (map SInt years)],
         (map (fun y => mkOption (str_int y) (SInt y)) years,
          match years with
          | [] => None
          | _ :: _ => Some (SInt (last years 0%Z))
          end)) /\
    StronglySorted Z.lt years /\
    (forall y,
       In y years <->
       exists feature, In feature features /\ has_year y feature).
Proof.
  intros Hget Hfs Hint.
  destruct (collect_years_ints features [] Hint) as (zs & E & Hnd & Hin).
  exists (sort_by Z.leb zs). split; [|split].
  - unfold update_year_selector. rewrite Hget, Hfs. simpl and_then.
    change (@nil (scalar Float)) with (map (@SInt Float) []).
    rewrite E. simpl and_then. rewrite py_sorted_ints. simpl and_then.
    rewrite map_map. f_equal. f_equal. f_equal.
    destruct (sort_by Z.leb zs) as [|a l]; [reflexivity|].
    change (SInt a :: map SInt l) with (map (@SInt Float) (a :: l)).
    rewrite last_ints. reflexivity.
  - apply sort_by_strict. apply Hnd. constructor.
  - intros y. rewrite sort_by_In, Hin. split; [|tauto].
    intros [[]|H]. exact H.
Qed.

Lemma any_year_is_complete sel (entries : list (json Float)) :
  (forall entry, In entry entries -> exists v, subscript entry "year" = Returned v) ->
  any_year_is sel entries
  = Returned (existsb
                (fun entry =>
                   match subscript entry "year" with
                   | Returned v => py_eq v sel
                   | Raised _ => false
                   end)
                entries).
Proof.
  induction entries as [|e es IH]; intros Hall; [reflexivity|].
  cbn [any_year_is existsb].
  destruct (Hall e (or_introl eq_refl)) as (v & Hv). rewrite Hv. simpl.
  destruct (py_eq v sel); [reflexivity|].
  apply IH. intros e' He'. apply Hall. right. exact He'.
Qed.

Lemma selected_features_complete sel (features : list (json Float)) :
  years_complete features ->
  selected_features sel features = Returned (filter (has_year_eq sel) features).
Proof.
  induction features as [|f fs IH]; intros Hall; [reflexivity|].
  cbn [selected_features filter]. unfold has_year_eq at 1.
  destruct (Hall f (or_introl eq_refl)) as (es & Ees & Hes).
  rewrite Ees. simpl. rewrite (any_year_is_complete sel es Hes). simpl.
  rewrite IH by (intros f' Hf'; apply Hall; right; exact Hf').
  reflexivity.
Qed.

Lemma has_year_eq_spec sel (feature : json Float) :
  has_year_eq sel feature = true <->
  exists entries entry v,
    entries_of feature = Returned entries /\ In entry entries /\
    subscript entry "year" = Returned v /\ py_eq v sel = true.
Proof.
  unfold has_year_eq. split.
  - destruct (entries_of feature) as [es|e]; [|discriminate].
    rewrite existsb_exists. intros (entry & He & Hv).
    destruct (subscript entry "year") as [v|] eqn:Es; [|discriminate].
    exists es, entry, v. repeat split; assumption.
  - intros (es & entry & v & -> & He & Es & Hv).
    apply existsb_exists. exists entry. split; [exact He|].
    rewrite Es. exact Hv.
Qed.

Lemma any_year_is_raises sel (before : list (json Float)) entry after items :
  (forall e, In e before ->
             exists v, subscript e "year" = Returned v /\ py_eq v sel = false) ->
  entry = JObj items -> dict_get "year" items = None ->
  any_year_is sel (before ++ entry :: after) = Raised (KeyError "year").
Proof.
  intros Hbefore -> Hnone. induction before as [|e before IH]; simpl.
  - rewrite Hnone. reflexivity.
  - destruct (Hbefore e (or_introl eq_refl)) as (v & Ev & Hne).
    rewrite Ev. simpl. rewrite Hne.
    apply IH. intros e' He'. apply Hbefore. right. exact He'.
Qed.

End CallbackFacts.


End Page1Facts.

(** ** Properties of the map page *)

Module Page1Properties.
Import Page1 Page1Facts.

Section Loading.

Context {Data Fault : Type} {F : Files Data Fault}.

Lemma Returned_inj {E A} (a b : A) : @Returned E A a = Returned b -> a = b.
Proof. intros H. injection H as H. exact H. Qed.

Lemma load_files_returns_no_fault data_dir names d0 ds :
  snd (load_files data_dir names d0) = Returned ds ->
  forall n e, In n names -> ~ faults data_dir n e.
Proof.
  revert d0. induction names as [|a names IH]; intros d0 H n e Hin [Hex Hf];
    [contradiction|].
  cbn [load_files] in H.
  destruct Hin as [->|Hin].
  - rewrite Hex, Hf in H. discriminate H.
  - destruct (path_exists (OsPath.join data_dir a)).
    + destruct (json_load (OsPath.join data_dir a)) as [d|msg|e'].
      * exact (IH _ H n e Hin (conj Hex Hf)).
      * destruct (load_files data_dir names d0) as [out r] eqn:E.
        apply (IH d0) with (n := n) (e := e); [rewrite E; exact H|exact Hin|].
        split; assumption.
      * discriminate H.
    + destruct (load_files data_dir names d0) as [out r] eqn:E.
      apply (IH d0) with (n := n) (e := e); [rewrite E; exact H|exact Hin|].
      split; assumption.
Qed.

(** X9. Loading skips and reports: when no file raises anything but a
    decode error, [load_geojson_data] returns; a file that is missing or
    does not parse costs one printed line and no entry, a file that
    loads gives one entry under its name without ".geojson" and no
    line. Looking a dataset name up gives the document of its file
    exactly when the file loaded, and entries and lines are five in
    all. *)
Theorem load_skips_missing_and_undecodable_files data_dir :
  (forall n e, In n file_names -> ~ faults data_dir n e) ->
  exists datasets,
    load_geojson_data data_dir
      = (flat_map (message data_dir) file_names, Returned datasets) /\
    datasets
      = flat_map
          (fun n => match loaded data_dir n with
                    | Some d => [(replace n ".geojson" "", d)]
                    | None => []
                    end)
          file_names /\
    (forall n, In n file_names ->
               dict_get (replace n ".geojson" "") datasets = loaded data_dir n) /\
    List.length datasets + List.length (flat_map (message data_dir) file_names) = 5.
Proof.
  intros Hok. eexists. split; [|split; [reflexivity|split]].
  - unfold load_geojson_data.
    rewrite load_files_closed_form;
      [reflexivity|exact Hok|exact dataset_names_distinct|reflexivity].
  - intros n Hn. apply dict_get_entries; [exact dataset_names_distinct|exact Hn].
  - exact (entries_and_messages data_dir file_names Hok).
Qed.

(** X10. Only decode errors are skipped: the first file that exists and
    raises another exception (a refused open, a decoding of bytes) ends
    the loading with that exception, after the lines of the files
    before it. *)
Theorem other_exception_escapes_loading data_dir before n after e :
  file_names = before ++ n :: after ->
  (forall n' e', In n' before -> ~ faults data_dir n' e') ->
  faults data_dir n e ->
  load_geojson_data data_dir = (flat_map (message data_dir) before, Raised e).
Proof.
  intros E Hok Hf. unfold load_geojson_data. rewrite E.
  apply load_files_fault; assumption.
Qed.

End Loading.

Section Callbacks.

Context {Float Figure PlotFault Fault : Type}
        {PF : PyFloat Float} {PL : Plotly Figure PlotFault}
        {F : Files (json Float) Fault}.

(** X11. A dataset that was not loaded offers nothing: for the result of
    [load_geojson_data], a selected name whose file is missing or did
    not parse, or that is the name of none of the five files, makes the
    year selector return no option and no default and print nothing;
    [update_map] then evaluates the tuple of its no-data return (line
    231), whose figures, or whose exception, are plotly's. *)
Theorem unloaded_dataset_offers_no_year data_dir out datasets name :
  load_geojson_data data_dir = (out, Returned datasets) ->
  (forall n, In n file_names -> replace n ".geojson" "" = name ->
             loaded data_dir n = None) ->
  update_year_selector datasets (Some name) = Returned ([], ([], None)) /\
  (forall selected_year,
     update_map_start datasets (Some name) selected_year = NoData no_data_return).
Proof.
  intros Hload Hname.
  assert (Hok : forall n e, In n file_names -> ~ faults data_dir n e).
  { apply (load_files_returns_no_fault data_dir file_names [] datasets).
    unfold load_geojson_data in Hload. rewrite Hload. reflexivity. }
  assert (E : load_geojson_data data_dir
              = (flat_map (message data_dir) file_names,
                 Returned ([] ++ flat_map
                                   (fun n => match loaded data_dir n with
                                             | Some d => [(replace n ".geojson" "", d)]
                                             | None => []
                                             end) file_names))).
  { unfold load_geojson_data. apply load_files_closed_form;
      [exact Hok|exact dataset_names_distinct|reflexivity]. }
  rewrite Hload in E. apply (f_equal snd) in E. cbn [snd app] in E.
  apply Returned_inj in E. rename E into Eds.
  assert (Hnone : dict_get name datasets = None).
  { rewrite Eds.
    destruct (in_dec string_dec name
                (map (fun n => replace n ".geojson" "") file_names)) as [Hin|Hout].
    - apply in_map_iff in Hin as (n & En & Hn).
      rewrite <- En, dict_get_entries by (exact dataset_names_distinct || exact Hn).
      exact (Hname n Hn En).
    - apply dict_get_entries_none. exact Hout. }
  unfold update_year_selector, update_map_start. rewrite Hnone.
  split; reflexivity.
Qed.

(** X12. For a loaded dataset whose features have their entries and
    whose years are integers (an entry may have none), the year selector
    returns; the values of its options are the integer years found in
    the time series of the features, each once and in strictly
    ascending order; features without a time series and entries without
    a year add nothing; each label is the decimal text of its value; and
    the line printed names the dataset and these years. *)
Theorem year_options_are_the_years_ascending datasets name geojson_data features :
  dict_get name datasets = Some geojson_data ->
  features_of geojson_data = Returned features ->
  int_years features ->
  exists years default_year,
    update_year_selector datasets (Some name)
    = Returned
        ([AvailableYears name (map SInt years)],
         (map (fun y => mkOption (str_int y) (SInt y)) years, default_year)) /\
    StronglySorted Z.lt years /\
    (forall y,
       In y years <->
       exists feature, In feature features /\ has_year y feature).
Proof.
  intros Hget Hfs Hint.
  destruct (selector_on_int_years datasets name geojson_data features Hget Hfs Hint)
    as (years & E & Hs & Hin).
  exists years. eexists. split; [exact E|]. split; [exact Hs|exact Hin].
Qed.

(** X13. For such a dataset the default year is the latest: it is absent
    exactly when no entry has a year, and otherwise it is the integer
    year of some feature and no feature has a later one. *)
Theorem default_year_is_the_latest datasets name geojson_data features :
  dict_get name datasets = Some geojson_data ->
  features_of geojson_data = Returned features ->
  int_years features ->
  exists printed_lines options default_year,
    update_year_selector datasets (Some name)
    = Returned (printed_lines, (options, default_year)) /\
    (default_year = None <->
     forall feature y, In feature features -> ~ has_year y feature) /\
    (forall v,
       default_year = Some v ->
       exists y,
         v = SInt y /\
         (exists feature, In feature features /\ has_year y feature) /\
         (forall feature y',
            In feature features -> has_year y' feature -> (y' <= y)%Z)).
Proof.
  intros Hget Hfs Hint.
  destruct (selector_on_int_years datasets name geojson_data features Hget Hfs Hint)
    as (years & E & Hs & Hin).
  do 3 eexists. split; [exact E|].
  destruct years as [|a l].
  - split.
    + split; [|reflexivity]. intros _ feature y Hf Hy.
      apply (proj2 (Hin y)). exists feature. split; assumption.
    + intros v Hv. discriminate Hv.
  - split.
    + split; [discriminate|]. intros Hnone. exfalso.
      destruct (proj1 (Hin a) (or_introl eq_refl)) as (feature & Hf & Hy).
      exact (Hnone feature a Hf Hy).
    + intros v Hv. injection Hv as <-.
      destruct (last_is_greatest (a :: l) Hs) as [Hl Hmax]; [discriminate|].
      exists (last (a :: l) 0%Z). split; [reflexivity|].
      split; [apply Hin; exact Hl|].
      intros feature y' Hf Hy'. apply Hmax. apply Hin.
      exists feature. split; assumption.
Qed.

Lemma options_of_sorted datasets selected printed_lines options default_year :
  update_year_selector datasets selected
  = Returned (printed_lines, (options, default_year)) ->
  options = [] \/
  exists years_set available_years,
    py_sorted years_set = Returned available_years /\
    options = map (fun y => mkOption (py_str y) y) available_years.
Proof.
  unfold update_year_selector.
  destruct selected as [name|];
    [|intros H; apply Returned_inj in H; left; congruence].
  destruct (dict_get name datasets) as [geojson_data|];
    [|intros H; apply Returned_inj in H; left; congruence].
  destruct (features_of geojson_data) as [fs|e]; [|discriminate].
  simpl and_then.
  destruct (collect_years fs []) as [years_set|e]; [|discriminate].
  simpl and_then.
  destruct (py_sorted years_set) as [available_years|e] eqn:Es; [|discriminate].
  simpl and_then. intros H. apply Returned_inj in H.
  right. exists years_set, available_years. split; [exact Es|congruence].
Qed.

Lemma py_sorted_without_float (l r : list (scalar Float)) :
  py_sorted l = Returned r ->
  existsb is_float r = false ->
  (forall x, In x r <-> In x l) /\
  (List.length l <= 1 \/ forallb is_number l = true \/ forallb is_str l = true).
Proof.
  unfold py_sorted. destruct l as [|a [|b l]].
  - intros H _. apply Returned_inj in H. subst r. split; [tauto|left; simpl; lia].
  - intros H _. apply Returned_inj in H. subst r. split; [tauto|left; simpl; lia].
  - destruct (existsb is_float (a :: b :: l)) eqn:Ef.
    + intros H Hr. exfalso.
      apply sorted_with_floats_permutes in H.
      apply existsb_exists in Ef as (x & Hx & Hfx).
      assert (Hxr : In x r) by (eapply Permutation_in; eassumption).
      assert (Hex : existsb is_float r = true)
        by (apply existsb_exists; exists x; split; assumption).
      rewrite Hex in Hr. discriminate Hr.
    + destruct (forallb is_number (a :: b :: l)) eqn:En.
      * intros H _. apply Returned_inj in H. subst r.
        split; [intros x; apply sort_by_In|right; left; reflexivity].
      * destruct (forallb is_str (a :: b :: l)) eqn:Est; [|discriminate].
        intros H _. apply Returned_inj in H. subst r.
        split; [intros x; apply sort_by_In|right; right; reflexivity].
Qed.

(** X14. The labels of the year options tell the years apart: when the
    year selector returns and none of the values it offers is a float,
    two of its options with the same label are the same option. This
    holds in particular for every dataset with integer years. *)
Theorem year_labels_are_distinct
    datasets selected printed_lines options default_year o o' :
  update_year_selector datasets selected
  = Returned (printed_lines, (options, default_year)) ->
  (Forall (fun o => is_float (value o) = false) options \/
   exists name geojson_data features,
     selected = Some name /\ dict_get name datasets = Some geojson_data /\
     features_of geojson_data = Returned features /\ int_years features) ->
  In o options -> In o' options ->
  label o = label o' -> o = o'.
Proof.
  intros Hret Hscope Ho Ho' El.
  assert (Hnf : Forall (fun o => is_float (value o) = false) options).
  { destruct Hscope as [H|(name & d & fs & -> & Hget & Hfs & Hint)]; [exact H|].
    destruct (selector_on_int_years datasets name d fs Hget Hfs Hint)
      as (years & E & _ & _).
    rewrite E in Hret. apply Returned_inj in Hret.
    injection Hret as _ <- _.
    apply Forall_forall. intros x Hx. apply in_map_iff in Hx as (y & <- & _).
    reflexivity. }
  destruct (options_of_sorted _ _ _ _ _ Hret) as [->|(s & r & Es & ->)];
    [contradiction|].
  assert (Hr : existsb is_float r = false).
  { destruct (existsb is_float r) eqn:E; [|reflexivity].
    apply existsb_exists in E as (x & Hx & Hfx).
    rewrite Forall_forall in Hnf.
    specialize (Hnf (mkOption (py_str x) x)
                    (in_map (fun y => mkOption (py_str y) y) r x Hx)).
    simpl in Hnf. congruence. }
  destruct (py_sorted_without_float s r Es Hr) as [Hin Hkind].
  apply in_map_iff in Ho as (a & <- & Ha).
  apply in_map_iff in Ho' as (b & <- & Hb).
  simpl in El. apply Hin in Ha. apply Hin in Hb.
  assert (Eab : a = b); [|subst b; reflexivity].
  destruct Hkind as [Hlen|[Hnum|Hstr]].
  - destruct s as [|x [|y s]]; simpl in Hlen; try lia; [contradiction|].
    destruct Ha as [<-|[]], Hb as [<-|[]]. reflexivity.
  - rewrite forallb_forall in Hnum.
    exact (py_str_inj_numbers a b (Hnum a Ha) (Hnum b Hb) El).
  - rewrite forallb_forall in Hstr.
    exact (py_str_inj_strs a b (Hstr a Ha) (Hstr b Hb) El).
Qed.

(** X15. When every feature of the selected dataset has its entries and
    every entry has a year, of whatever kind, the feature filter at the
    start of [update_map] returns, in order, exactly the features that
    have an entry whose year is equal ([==]) to the selected value; so a
    year that is null is equal to a cleared selection. *)
Theorem features_of_the_selected_year
    datasets name geojson_data features selected_year :
  dict_get name datasets = Some geojson_data ->
  features_of geojson_data = Returned features ->
  years_complete features ->
  update_map_start datasets (Some name) selected_year
    = GoesOn (Returned (filter (has_year_eq selected_year) features)) /\
  (forall feature,
     In feature (filter (has_year_eq selected_year) features)
     <-> In feature features /\
         exists entries entry v,
           entries_of feature = Returned entries /\ In entry entries /\
           subscript entry "year" = Returned v /\
           py_eq v selected_year = true).
Proof.
  intros Hget Hfs Hall. unfold update_map_start. rewrite Hget, Hfs. simpl and_then.
  split.
  - rewrite selected_features_complete; [reflexivity|exact Hall].
  - intros feature. rewrite filter_In, has_year_eq_spec. reflexivity.
Qed.

(** X16. An entry that is a dict without a year, which the year selector
    passes over, makes [update_map] raise KeyError when it is reached:
    when the features before it are filtered without error and the
    entries before it in its time series have years that are not equal
    to the selected one. *)
Theorem entry_without_year_raises_in_update_map
    datasets name geojson_data sel fs1 feature fs2 kept before entry after items :
  dict_get name datasets = Some geojson_data ->
  features_of geojson_data = Returned (fs1 ++ feature :: fs2) ->
  selected_features sel fs1 = Returned kept ->
  entries_of feature = Returned (before ++ entry :: after) ->
  (forall e, In e before ->
             exists v, subscript e "year" = Returned v /\ py_eq v sel = false) ->
  entry = JObj items -> dict_get "year" items = None ->
  update_map_start datasets (Some name) sel = GoesOn (Raised (KeyError "year")) /\
  contains_key entry "year" = Returned false.
Proof.
  intros Hget Efs Hfs1 Ets Hbefore Hentry Hnone.
  split; [|subst entry; simpl; rewrite Hnone; reflexivity].
  unfold update_map_start. rewrite Hget, Efs. simpl and_then. f_equal.
  clear Efs Hget. revert kept Hfs1.
  induction fs1 as [|f fs1 IH]; intros kept Hfs1.
  - cbn [app selected_features]. rewrite Ets. simpl and_then.
    rewrite (any_year_is_raises sel before entry after items Hbefore Hentry Hnone).
    reflexivity.
  - cbn [app selected_features] in *.
    destruct (entries_of f) as [es|e]; [|discriminate Hfs1]. simpl and_then in *.
    destruct (any_year_is sel es) as [keep|e]; [|discriminate Hfs1].
    simpl and_then in *.
    destruct (selected_features sel fs1) as [l|e] eqn:E; [|discriminate Hfs1].
    rewrite (IH l eq_refl). reflexivity.
Qed.

(** X17. The two callbacks agree on complete integer data: when every
    feature has its entries and every entry has an integer year, each
    year the selector offers (the default included) makes the feature
    filter of [update_map] return at least one feature, and every
    feature it returns has an entry of that year. *)
Theorem offered_year_selects_a_feature
    datasets name geojson_data features printed_lines options default_year o :
  dict_get name datasets = Some geojson_data ->
  features_of geojson_data = Returned features ->
  int_years features ->
  years_complete features ->
  update_year_selector datasets (Some name)
  = Returned (printed_lines, (options, default_year)) ->
  In o options ->
  exists y kept,
    value o = SInt y /\
    update_map_start datasets (Some name) (value o) = GoesOn (Returned kept) /\
    kept <> [] /\
    (forall feature, In feature kept -> has_year y feature).
Proof.
  intros Hget Hfs Hint Hall Hret Ho.
  destruct (selector_on_int_years datasets name geojson_data features Hget Hfs Hint)
    as (years & E & _ & Hin).
  rewrite E in Hret. apply Returned_inj in Hret. injection Hret as _ <- _.
  apply in_map_iff in Ho as (y & <- & Hy). cbn [value].
  exists y, (filter (has_year_eq (SInt y)) features).
  split; [reflexivity|]. split.
  { unfold update_map_start. rewrite Hget, Hfs. simpl and_then.
    rewrite selected_features_complete; [reflexivity|exact Hall]. }
  split.
  - apply Hin in Hy as (feature & Hf & (es & e & Ees & He & Hs)).
    intros Ek.
    assert (Hk : In feature (filter (has_year_eq (SInt y)) features)).
    { apply filter_In. split; [exact Hf|]. apply has_year_eq_spec.
      exists es, e, (JScalar (SInt y)). repeat split; try assumption.
      simpl. unfold scalar_eq, scalar_test. simpl. apply Z.eqb_refl. }
    rewrite Ek in Hk. exact Hk.
  - intros feature Hk. apply filter_In in Hk as [Hf Hk].
    apply has_year_eq_spec in Hk as (es & e & v & Ees & He & Hs & Hv).
    destruct (Hint feature Hf) as (es' & Ees' & Hes').
    rewrite Ees in Ees'. injection Ees' as <-.
    rewrite Forall_forall in Hes'.
    destruct (int_entry_year e (Hes' e He)) as [[_ Hno]|(y' & _ & Hs')].
    + exfalso. exact (Hno v Hs).
    + rewrite Hs in Hs'. injection Hs' as ->.
      simpl in Hv. unfold scalar_eq, scalar_test in Hv. simpl in Hv.
      apply Z.eqb_eq in Hv. subst y'.
      exists es, e. repeat split; assumption.
Qed.

End Callbacks.


End Page1Properties.

(** ** The further properties at concrete inputs *)

Section ExtraRuns.
Import PyStr.

Lemma no_matching_name_no_effect_witness :
  Forall (fun f => endswith f ".nc" = false) ["notes.txt"; "tempA_2020.nc.bak"] /\
  run (X := toy) ["notes.txt"; "tempA_2020.nc.bak"] = ([], Returned tt).
Proof.
  assert (H : Forall (fun f => endswith f ".nc" = false)
                ["notes.txt"; "tempA_2020.nc.bak"])
    by (repeat constructor).
  split; [exact H|].
  exact (proj2 (no_matching_name_no_effect (X := toy) _ H)).
Defined.

Lemma returning_run_saves_every_group_witness :
  snd (run (X := toy) ["tempA_2020.nc"; "rainB_2020.nc"; "tempA_2021.nc"])
    = Returned tt /\
  List.length
    (saved_files (fst (run (X := toy) ["tempA_2020.nc"; "rainB_2020.nc"; "tempA_2021.nc"])))
    = 2 /\
  NoDup
    (map fst
       (saved_files (fst (run (X := toy) ["tempA_2020.nc"; "rainB_2020.nc"; "tempA_2021.nc"])))).
Proof.
  split; [reflexivity|].
  destruct (returning_run_saves_every_group (X := toy)
              ["tempA_2020.nc"; "rainB_2020.nc"; "tempA_2021.nc"]
              (fst (run (X := toy) ["tempA_2020.nc"; "rainB_2020.nc"; "tempA_2021.nc"]))
              eq_refl) as (Hlen & Hnd & _).
  split; [exact Hlen|exact Hnd].
Defined.

Lemma distinct_groups_distinct_output_paths_witness :
  In ("rainB", ["Base Climate Data/rainB_2020.nc"])
     (files_by_prefix (all_files ["tempA_2020.nc"; "rainB_2020.nc"])) /\
  "rainB" = "rainB" /\
  ["Base Climate Data/rainB_2020.nc"] = ["Base Climate Data/rainB_2020.nc"].
Proof.
  split; [right; left; reflexivity|].
  exact (distinct_groups_distinct_output_paths (Attrs := string)
           ["tempA_2020.nc"; "rainB_2020.nc"]
           "rainB" ["Base Climate Data/rainB_2020.nc"]
           "rainB" ["Base Climate Data/rainB_2020.nc"]
           [mkRecord "rainB_2020.nc" "precip" "mm"]
           [mkRecord "rainB_2020.nc" "precip" "mm"; mkRecord "rainB_2020.nc" "flag" "1"]
           (or_intror (or_introl eq_refl)) (or_intror (or_introl eq_refl))
           eq_refl).
Defined.

Lemma inputs_never_overwritten_witness :
  Forall (fun f => startswith f "/" = false) ["tempA_2020.nc"; "void_2020.nc"] /\
  "Base Climate Data/void_2020.nc"
    <> "/src/data/Processed Climate Data/combined_void_climate_data.nc".
Proof.
  assert (H : Forall (fun f => startswith f "/" = false)
                ["tempA_2020.nc"; "void_2020.nc"])
    by (repeat constructor).
  split; [exact H|].
  refine (proj2 (proj2 (inputs_never_overwritten (X := toy)
            ["tempA_2020.nc"; "void_2020.nc"]
            (fst (run (X := toy) ["tempA_2020.nc"; "void_2020.nc"]))
            (Returned tt) H eq_refl
            "Base Climate Data/void_2020.nc"
            "/src/data/Processed Climate Data/combined_void_climate_data.nc"
            [] _ _))).
  - simpl. tauto.
  - simpl. tauto.
Defined.

Lemma output_name_from_first_file_with_variables_witness :
  opens_to (X := toy)
    ["Base Climate Data/void_2020.nc"; "Base Climate Data/tempA_2020.nc"]
    [[]; ["temp"]] /\
  output_path "mix"
    (metadata_of (X := toy)
       ["Base Climate Data/void_2020.nc"; "Base Climate Data/tempA_2020.nc"]
       [[]; ["temp"]])
    = "src/data/Processed Climate Data/combined_mix_temp_data.nc".
Proof.
  assert (Ho : opens_to (X := toy)
            ["Base Climate Data/void_2020.nc"; "Base Climate Data/tempA_2020.nc"]
            [[]; ["temp"]])
    by (repeat constructor).
  split; [exact Ho|].
  refine (proj2 (output_name_from_first_file_with_variables (X := toy) "mix" _ _ Ho)
            [[]] ["temp"] [] "temp" [] eq_refl _ eq_refl).
  repeat constructor.
Defined.

Lemma metadata_file_names_are_listed_names_witness :
  Forall (fun f => contains "/" f = false) ["tempA_2020.nc"; "notes.txt"] /\
  In "tempA_2020.nc" (all_files ["tempA_2020.nc"; "notes.txt"]).
Proof.
  assert (H : Forall (fun f => contains "/" f = false) ["tempA_2020.nc"; "notes.txt"])
    by (repeat constructor).
  split; [exact H|].
  refine (metadata_file_names_are_listed_names (X := toy)
            ["tempA_2020.nc"; "notes.txt"]
            (fst (run (X := toy) ["tempA_2020.nc"; "notes.txt"]))
            (Returned tt) H eq_refl
            (mkRecord "tempA_2020.nc" "temp" "units of temp") _).
  simpl. tauto.
Defined.

Lemma no_file_opened_twice_witness :
  NoDup ["tempA_2020.nc"; "tempA_2021.nc"; "ghost_1.nc"] /\
  NoDup (opened_paths
           (fst (run (X := toy) ["tempA_2020.nc"; "tempA_2021.nc"; "ghost_1.nc"]))).
Proof.
  assert (H : NoDup ["tempA_2020.nc"; "tempA_2021.nc"; "ghost_1.nc"])
    by (repeat constructor; simpl; intuition discriminate).
  split; [exact H|].
  exact (no_file_opened_twice (X := toy)
           ["tempA_2020.nc"; "tempA_2021.nc"; "ghost_1.nc"]
           (fst (run (X := toy) ["tempA_2020.nc"; "tempA_2021.nc"; "ghost_1.nc"]))
           (Raised "FileNotFoundError") H eq_refl).
Defined.

End ExtraRuns.

Section Page1Runs.
Import Page1 Page1Properties.

Lemma toy_files_without_fault n e :
  In n file_names -> ~ faults (F := toy_files) "/srv/data/cote-divoire" n e.
Proof.
  intros Hin [Hex Hf]. simpl in Hin.
  destruct Hin as [<-|[<-|[<-|[<-|[<-|[]]]]]];
    vm_compute in Hex, Hf; discriminate.
Defined.

Lemma load_skips_missing_and_undecodable_files_witness :
  (forall n e, In n file_names ->
               ~ faults (F := toy_files) "/srv/data/cote-divoire" n e) /\
  exists datasets,
    snd (load_geojson_data (F := toy_files) "/srv/data/cote-divoire")
      = Returned datasets /\
    dict_get "cote-divoire-cocoa-yield-2021" datasets = Some toy_yield /\
    dict_get "cote-divoire-cocoa-tn-2021" datasets = None.
Proof.
  split; [exact toy_files_without_fault|].
  destruct (load_skips_missing_and_undecodable_files (F := toy_files)
              "/srv/data/cote-divoire" toy_files_without_fault)
    as (datasets & E & _ & Hget & _).
  exists datasets. split; [rewrite E; reflexivity|]. split.
  - exact (Hget "cote-divoire-cocoa-yield-2021.geojson"
             (or_intror (or_intror (or_intror (or_introl eq_refl))))).
  - exact (Hget "cote-divoire-cocoa-tn-2021.geojson"
             (or_intror (or_intror (or_introl eq_refl)))).
Defined.

Lemma other_exception_escapes_loading_witness :
  faults (F := toy_files_refused) "/srv/data/cote-divoire"
    "cote-divoire-cocoa-deforestation-15-years-total-2021.geojson" "PermissionError" /\
  load_geojson_data (F := toy_files_refused) "/srv/data/cote-divoire"
    = (["Error loading cote-divoire-cocoa-area-2021.geojson: "
        +++ "Expecting value: line 1 column 1 (char 0)"],
       Raised "PermissionError").
Proof.
  assert (Hf : faults (F := toy_files_refused) "/srv/data/cote-divoire"
                 "cote-divoire-cocoa-deforestation-15-years-total-2021.geojson"
                 "PermissionError")
    by (split; reflexivity).
  split; [exact Hf|].
  refine (other_exception_escapes_loading (F := toy_files_refused)
            "/srv/data/cote-divoire"
            ["cote-divoire-cocoa-area-2021.geojson"] _
            ["cote-divoire-cocoa-tn-2021.geojson";
             "cote-divoire-cocoa-yield-2021.geojson";
             "cote-divoire-zdc-traded-cote-divoire-cocoa-perc-2021.geojson"]
            "PermissionError" eq_refl _ Hf).
  intros n' e' [<-|[]] [_ Hbad]. vm_compute in Hbad. discriminate Hbad.
Defined.

Local Abbreviation area_features :=
  [toy_feature "Abidjan" [toy_entry 2021%Z; toy_entry 2019%Z];
   toy_feature_without_timeseries "Bouake";
   toy_feature "Daloa" [toy_entry_without_year; toy_entry 2020%Z; toy_entry 2019%Z]].

Local Abbreviation complete_features :=
  [toy_feature "Abidjan" [toy_entry 2021%Z; toy_entry 2019%Z];
   toy_feature_without_timeseries "Bouake";
   toy_feature "Daloa" [toy_entry 2020%Z]].

Lemma toy_entry_is_int_entry y : int_entry (toy_entry y).
Proof.
  eexists. split; [reflexivity|]. right. exists y. reflexivity.
Defined.

Lemma toy_entry_without_year_is_int_entry : int_entry toy_entry_without_year.
Proof.
  eexists. split; [reflexivity|]. left. reflexivity.
Defined.

Lemma toy_area_int_years : int_years area_features.
Proof.
  intros feature Hf. simpl in Hf.
  destruct Hf as [<-|[<-|[<-|[]]]]; eexists; (split; [reflexivity|]);
    repeat first [ apply Forall_nil
                 | apply Forall_cons;
                   [first [apply toy_entry_is_int_entry
                          |apply toy_entry_without_year_is_int_entry]|] ].
Defined.

Lemma toy_complete_int_years : int_years complete_features.
Proof.
  intros feature Hf. simpl in Hf.
  destruct Hf as [<-|[<-|[<-|[]]]]; eexists; (split; [reflexivity|]);
    repeat first [ apply Forall_nil
                 | apply Forall_cons; [apply toy_entry_is_int_entry|] ].
Defined.

Lemma toy_complete_has_all_years : years_complete complete_features.
Proof.
  intros feature Hf. simpl in Hf.
  destruct Hf as [<-|[<-|[<-|[]]]]; eexists; (split; [reflexivity|]);
    intros entry He; simpl in He;
    repeat (destruct He as [<-|He]; [eexists; reflexivity|]); contradiction.
Defined.

Lemma unloaded_dataset_offers_no_year_witness :
  snd (load_geojson_data (F := toy_files) "/srv/data/cote-divoire")
    = Returned [("cote-divoire-cocoa-area-2021", toy_area);
                ("cote-divoire-cocoa-yield-2021", toy_yield)] /\
  update_year_selector (PF := toy_float)
    [("cote-divoire-cocoa-area-2021", toy_area);
     ("cote-divoire-cocoa-yield-2021", toy_yield)]
    (Some "cote-divoire-cocoa-tn-2021")
    = Returned ([], ([], None)) /\
  update_map_start (PF := toy_float) (PL := toy_plotly)
    [("cote-divoire-cocoa-area-2021", toy_area);
     ("cote-divoire-cocoa-yield-2021", toy_yield)]
    (Some "cote-divoire-cocoa-tn-2021") (SInt 2020%Z)
    = NoData (Raised "ValueError").
Proof.
  split; [reflexivity|].
  assert (H : forall n, In n file_names ->
                replace n ".geojson" "" = "cote-divoire-cocoa-tn-2021" ->
                loaded (F := toy_files) "/srv/data/cote-divoire" n = None).
  { intros n Hin En. simpl in Hin.
    destruct Hin as [<-|[<-|[<-|[<-|[<-|[]]]]]];
      solve [reflexivity | vm_compute in En; discriminate En]. }
  pose proof (unloaded_dataset_offers_no_year
                (PF := toy_float) (PL := toy_plotly) (F := toy_files)
                "/srv/data/cote-divoire"
                (fst (load_geojson_data (F := toy_files) "/srv/data/cote-divoire"))
                [("cote-divoire-cocoa-area-2021", toy_area);
                 ("cote-divoire-cocoa-yield-2021", toy_yield)]
                "cote-divoire-cocoa-tn-2021" eq_refl H) as [Hsel Hmap].
  split; [exact Hsel|]. exact (Hmap (SInt 2020%Z)).
Defined.

Lemma year_options_are_the_years_ascending_witness :
  dict_get "area" [("area", toy_area)] = Some toy_area /\
  features_of toy_area = Returned area_features /\
  int_years area_features /\
  exists years default_year,
    update_year_selector (PF := toy_float) [("area", toy_area)] (Some "area")
    = Returned
        ([AvailableYears "area" (map SInt years)],
         (map (fun y => mkOption (str_int y) (SInt y)) years, default_year)) /\
    StronglySorted Z.lt years.
Proof.
  split; [reflexivity|]. split; [reflexivity|]. split; [exact toy_area_int_years|].
  destruct (year_options_are_the_years_ascending (PF := toy_float)
              [("area", toy_area)] "area" toy_area area_features
              eq_refl eq_refl toy_area_int_years)
    as (years & default_year & E & Hs & _).
  exists years, default_year. split; [exact E|exact Hs].
Defined.

Lemma default_year_is_the_latest_witness :
  dict_get "area" [("area", toy_area)] = Some toy_area /\
  int_years area_features /\
  exists printed_lines options default_year,
    update_year_selector (PF := toy_float) [("area", toy_area)] (Some "area")
    = Returned (printed_lines, (options, default_year)) /\
    forall v,
      default_year = Some v ->
      exists y,
        v = SInt y /\
        forall feature y',
          In feature area_features -> has_year y' feature ->
          (y' <= y)%Z.
Proof.
  split; [reflexivity|]. split; [exact toy_area_int_years|].
  destruct (default_year_is_the_latest (PF := toy_float)
              [("area", toy_area)] "area" toy_area area_features
              eq_refl eq_refl toy_area_int_years)
    as (printed_lines & options & default_year & E & _ & Hlatest).
  exists printed_lines, options, default_year. split; [exact E|].
  intros v Hv. destruct (Hlatest v Hv) as (y & Ey & _ & Hmax).
  exists y. split; [exact Ey|exact Hmax].
Defined.

Lemma year_labels_are_distinct_witness :
  update_year_selector (PF := toy_float) [("area", toy_area)] (Some "area")
  = Returned
      ([AvailableYears "area" [SInt 2019%Z; SInt 2020%Z; SInt 2021%Z]],
       ([mkOption "2019" (SInt 2019%Z); mkOption "2020" (SInt 2020%Z);
         mkOption "2021" (SInt 2021%Z)],
        Some (SInt 2021%Z))) /\
  mkOption (Float := unit) "2020" (SInt 2020%Z) = mkOption "2020" (SInt 2020%Z).
Proof.
  split; [reflexivity|].
  refine (year_labels_are_distinct (PF := toy_float)
            [("area", toy_area)] (Some "area")
            [AvailableYears "area" [SInt 2019%Z; SInt 2020%Z; SInt 2021%Z]]
            [mkOption "2019" (SInt 2019%Z); mkOption "2020" (SInt 2020%Z);
             mkOption "2021" (SInt 2021%Z)]
            (Some (SInt 2021%Z)) _ _ eq_refl _ _ _ eq_refl).
  - left. repeat constructor.
  - right; left; reflexivity.
  - right; left; reflexivity.
Defined.

Lemma features_of_the_selected_year_witness :
  dict_get "c" [("c", toy_complete)] = Some toy_complete /\
  features_of toy_complete = Returned complete_features /\
  years_complete complete_features /\
  update_map_start (PF := toy_float) (PL := toy_plotly)
    [("c", toy_complete)] (Some "c") (SInt 2020%Z)
    = GoesOn (Returned [toy_feature "Daloa" [toy_entry 2020%Z]]).
Proof.
  split; [reflexivity|]. split; [reflexivity|].
  split; [exact toy_complete_has_all_years|].
  exact (proj1 (features_of_the_selected_year (PF := toy_float) (PL := toy_plotly)
                  [("c", toy_complete)] "c" toy_complete complete_features
                  (SInt 2020%Z) eq_refl eq_refl toy_complete_has_all_years)).
Defined.

Lemma entry_without_year_raises_in_update_map_witness :
  In (mkOption "2020" (SInt 2020%Z))
     (match update_year_selector (PF := toy_float) [("area", toy_area)] (Some "area") with
      | Returned (_, (options, _)) => options
      | Raised _ => []
      end) /\
  update_map_start (PF := toy_float) (PL := toy_plotly)
    [("area", toy_area)] (Some "area") (SInt 2020%Z)
    = GoesOn (Raised (KeyError "year")).
Proof.
  split; [right; left; reflexivity|].
  refine (proj1 (entry_without_year_raises_in_update_map
                   (PF := toy_float) (PL := toy_plotly)
                   [("area", toy_area)] "area" toy_area (SInt 2020%Z)
                   [toy_feature "Abidjan" [toy_entry 2021%Z; toy_entry 2019%Z];
                    toy_feature_without_timeseries "Bouake"]
                   (toy_feature "Daloa"
                      [toy_entry_without_year; toy_entry 2020%Z; toy_entry 2019%Z])
                   [] [] [] toy_entry_without_year
                   [toy_entry 2020%Z; toy_entry 2019%Z]
                   [("numerical_value", JScalar (SInt 7%Z))]
                   eq_refl eq_refl eq_refl eq_refl _ eq_refl eq_refl)).
  intros e [].
Defined.

Lemma offered_year_selects_a_feature_witness :
  int_years complete_features /\
  years_complete complete_features /\
  exists y kept,
    SInt (Float := unit) 2021%Z = SInt y /\
    update_map_start (PF := toy_float) (PL := toy_plotly)
      [("c", toy_complete)] (Some "c") (SInt 2021%Z)
      = GoesOn (Returned kept) /\
    kept <> [].
Proof.
  split; [exact toy_complete_int_years|].
  split; [exact toy_complete_has_all_years|].
  assert (Hret : update_year_selector (PF := toy_float) [("c", toy_complete)] (Some "c")
                 = Returned
                     ([AvailableYears "c" [SInt 2019%Z; SInt 2020%Z; SInt 2021%Z]],
                      ([mkOption "2019" (SInt 2019%Z); mkOption "2020" (SInt 2020%Z);
                        mkOption "2021" (SInt 2021%Z)],
                       Some (SInt 2021%Z))))
    by reflexivity.
  assert (Ho : In (mkOption (Float := unit) "2021" (SInt 2021%Z))
                 [mkOption "2019" (SInt 2019%Z); mkOption "2020" (SInt 2020%Z);
                  mkOption "2021" (SInt 2021%Z)])
    by (right; right; left; reflexivity).
  destruct (offered_year_selects_a_feature (PF := toy_float) (PL := toy_plotly)
              [("c", toy_complete)] "c" toy_complete complete_features
              _ _ _ (mkOption "2021" (SInt 2021%Z))
              eq_refl eq_refl toy_complete_int_years toy_complete_has_all_years
              Hret Ho)
    as (y & kept & Ey & E & Hne & _).
  exists y, kept. split; [exact Ey|]. split; [exact E|exact Hne].
Defined.

End Page1Runs.
